(** * t-control: temperature display firmware for the MSP430G2x53

    A shallow embedding of [main.c]: the control loop of [main], the buzzer
    routine [buzz], the digit renderer [write_4digit] / [inject_7seg] and the
    bit-serial display driver [write_7seg].

    The firmware talks to the hardware through memory-mapped registers.  Every
    access that the outside world can observe is recorded, in program order,
    as an [event]; a routine denotes the list of events it performs.  What the
    hardware feeds back (the button pin, the ADC samples) is an [input] of the
    loop iteration. *)

From Stdlib Require Import ZArith List Bool Lia.
From Stdlib Require Import SpecFloat.
Import ListNotations.
Local Open Scope Z_scope.

(** ** Machine integers

    On the MSP430 [int] and [unsigned int] are 16 bits wide.  Values are kept
    in [Z]; the wrap-around of the two types is written out. *)

Definition UINT_MODULUS : Z := 65536.
Definition INT_MIN : Z := -32768.
Definition INT_MAX : Z := 32767.

(** Conversion to [unsigned int]: reduction modulo 2^16. *)
Definition to_uint (z : Z) : Z := z mod UINT_MODULUS.

(** Conversion to [int]: the two's complement reading of the low 16 bits. *)
Definition to_int (z : Z) : Z := (z + 32768) mod UINT_MODULUS - 32768.

(** ** Floating point

    [double] is IEEE 754 binary64 with round-to-nearest-even, taken from the
    executable specification of the standard library. *)

Definition double : Type := spec_float.
Definition dprec : Z := 53.
Definition demax : Z := 1024.

Definition dmul : double -> double -> double := SFmul dprec demax.
Definition ddiv : double -> double -> double := SFdiv dprec demax.
Definition dadd : double -> double -> double := SFadd dprec demax.
Definition dsub : double -> double -> double := SFsub dprec demax.
Definition dneg : double -> double := SFopp.

(** Conversion of an integer to [double]. *)
Definition int_to_double (z : Z) : double := binary_normalize dprec demax z 0 false.

(** A decimal literal [num / den] (with [den] a power of ten): the double
    nearest to the quotient.  Both operands are small integers, which are
    exact, and the division rounds correctly. *)
Definition dlit (num den : Z) : double := ddiv (int_to_double num) (int_to_double den).

(** Conversion of a [double] to [int]: the fractional part is discarded; the
    behaviour is undefined ([None]) when the value is not finite or the
    integral part does not fit. *)
Definition double_to_int (x : double) : option Z :=
  match x with
  | S754_zero _ => Some 0
  | S754_finite s m e =>
      let mag := if 0 <=? e then Zpos m * 2 ^ e else Zpos m / 2 ^ (- e) in
      let v := if s then - mag else mag in
      if (INT_MIN <=? v) && (v <=? INT_MAX) then Some v else None
  | S754_infinity _ => None
  | S754_nan => None
  end.

(** ** Compile-time configuration *)

Record config : Type := {
  READ_VOLTAGE_OR_DEG : bool;   (* 1: millivolts; 0: 100 x degrees Celsius *)
  TEMP_THRESHOLD_TOGGLE : bool; (* 1: the potentiometer is a threshold *)
  BUZZER_LIMIT : Z              (* consecutive buzzes before the alarm is neglected *)
}.

(** The values of the three macros in [main.c]. *)
Definition source_config : config :=
  {| READ_VOLTAGE_OR_DEG := true; TEMP_THRESHOLD_TOGGLE := true; BUZZER_LIMIT := 5 |}.

Definition BEEP_TIME : Z := 1500.
Definition SOUND_DELAY : Z := 20.
Definition WAIT_TIME : Z := 200.
(** [BEEP_TIME_MOD] expands to [1500*1/(2*20)], evaluated in [int]. *)
Definition BEEP_TIME_MOD : Z := Z.quot (BEEP_TIME * 1) (2 * SOUND_DELAY).
(** The double nearest to 2.96. *)
Definition VOLTAGE_COEFF : double := S754_finite false 6665327448508334 (-51).
Definition EMPTY_X : Z := 10.

(** 7-segment mapping; the order of the bits is 0bABCDEFGP. *)
Definition index : list Z :=
  [ 0xFC  (* 0b11111100, 0 *)
  ; 0x60  (* 0b01100000, 1 *)
  ; 0xDA  (* 0b11011010, 2 *)
  ; 0xF2  (* 0b11110010, 3 *)
  ; 0x66  (* 0b01100110, 4 *)
  ; 0xB6  (* 0b10110110, 5 *)
  ; 0xBE  (* 0b10111110, 6 *)
  ; 0xE0  (* 0b11100000, 7 *)
  ; 0xFE  (* 0b11111110, 8 *)
  ; 0xF6  (* 0b11110110, 9 *)
  ; 0x00  (* 0b00000000, all-clear *)
  ].

(** [index[d]] for an [unsigned int] subscript; reading past the eleventh
    entry is undefined. *)
Definition index_at (d : Z) : option Z := nth_error index (Z.to_nat d).

(** ** Observable events *)

Inductive event : Type :=
| P2OUT_write (v : Z)     (* P2OUT = v *)
| P1OUT_or (m : Z)        (* P1OUT |= m *)
| P1OUT_and (m : Z)       (* P1OUT &= m *)
| ADC10_disable           (* ADC10CTL0 &= ~ENC; while (ADC10CTL1 & BUSY); *)
| ADC10SA_write (sa : Z)  (* ADC10SA = sa *)
| ADC10_start             (* ADC10CTL0 |= ENC + ADC10SC *)
| delay_cycles (n : Z)    (* __delay_cycles(n) *)
| busy_loop (n : Z).      (* for (i = n; i > 0; i--); *)

Definition trace : Type := list event.

(** ** Computations: a trace of events and a result, or undefined behaviour *)

Definition M (A : Type) : Type := option (A * trace).

Definition ret {A : Type} (a : A) : M A := Some (a, []).

Definition bind {A B : Type} (c : M A) (k : A -> M B) : M B :=
  match c with
  | None => None
  | Some (a, t1) =>
      match k a with
      | None => None
      | Some (b, t2) => Some (b, t1 ++ t2)
      end
  end.

Definition emit (t : trace) : M unit := Some (tt, t).

Definition lift {A : Type} (o : option A) : M A :=
  match o with
  | None => None
  | Some a => Some (a, [])
  end.

Notation "x <- c ;; k" := (bind c (fun x => k))
  (at level 61, c at next level, right associativity).
Notation "c ;; k" := (bind c (fun _ => k))
  (at level 61, right associativity).

(** A counted loop [for (i = n; i > 0; i--) body] whose body does not depend
    on [i]. *)
Fixpoint repeatM (n : nat) (body : M unit) : M unit :=
  match n with
  | O => ret tt
  | S n' => body ;; repeatM n' body
  end.

(** ** Display driver: [write_7seg] *)

Definition sck : Z := 0x08.   (* P2.3 *)
Definition rck : Z := 0x10.   (* P2.4 *)

(** First loop: fill the lower 4 bits of IC102 with 0. *)
Fixpoint fill_lower (i : nat) : trace :=
  match i with
  | O => []
  | S i' =>
      [ P2OUT_write 0; delay_cycles 1
      ; P2OUT_write sck; delay_cycles 1
      ; P2OUT_write 0; delay_cycles 1 ] ++ fill_lower i'
  end.

(** Second loop: fill the upper 4 bits of IC102; [index] is the local copy of
    the digit-select argument, decremented on every pass. *)
Fixpoint fill_upper (i : nat) (index : Z) : trace :=
  match i with
  | O => []
  | S i' =>
      (if index =? 1
       then [ P2OUT_write 1; delay_cycles 1
            ; P2OUT_write (Z.lor sck 1); delay_cycles 1
            ; P2OUT_write 1; delay_cycles 1 ]
       else [ P2OUT_write 0; delay_cycles 1
            ; P2OUT_write (Z.lor sck 0); delay_cycles 1
            ; P2OUT_write 0; delay_cycles 1 ])
      ++ fill_upper i' (to_int (index - 1))
  end.

(** Third loop: write the 7-segment message. *)
Fixpoint shift_message (i : nat) (data : Z) : trace :=
  match i with
  | O => []
  | S i' =>
      let bit := to_uint (Z.land data 1) in
      [ delay_cycles 1
      ; P2OUT_write bit
      ; P2OUT_write (Z.lor sck bit); delay_cycles 1
      ; P2OUT_write bit; delay_cycles 1 ]
      ++ shift_message i' (Z.shiftr data 1)
  end.

Definition write_7seg (data index : Z) : trace :=
  fill_lower 4 ++ fill_upper 4 index ++ shift_message 8 data
  ++ [ P2OUT_write rck; delay_cycles 1 ].

(** ** Digit renderer: [inject_7seg] and [write_4digit] *)

(** One pass of the loop of [inject_7seg]: the four table reads and the four
    digits, written from left to right. *)
Definition inject_pass (d_1 d_2 d_3 d_4 : Z) : M unit :=
  p_1 <- lift (index_at d_1) ;;
  emit (write_7seg (to_int p_1) 4) ;;
  emit [delay_cycles 10000] ;;
  p_2 <- lift (index_at d_2) ;;
  emit (write_7seg (to_int p_2) 3) ;;
  emit [delay_cycles 10000] ;;
  p_3 <- lift (index_at d_3) ;;
  emit (write_7seg (to_int p_3) 2) ;;
  emit [delay_cycles 10000] ;;
  p_4 <- lift (index_at d_4) ;;
  emit (write_7seg (to_int p_4) 1) ;;
  emit [delay_cycles 10000].

Definition inject_7seg (d_1 d_2 d_3 d_4 delay : Z) : M unit :=
  i <- lift (double_to_int (dmul (int_to_double delay) (dlit 4 10))) ;;
  repeatM (Z.to_nat i) (inject_pass d_1 d_2 d_3 d_4).

(** Decimal to 7Seg; the parameter [delay] is not used by the body. *)
Definition write_4digit (number delay : Z) : M unit :=
  let d_4 := to_uint (Z.rem number 10) in
  let d_3 := to_uint (Z.rem (Z.quot number 10) 10) in
  let d_2 := to_uint (Z.rem (Z.quot number 100) 10) in
  let d_1 := to_uint (Z.rem (Z.quot number 1000) 10) in
  inject_7seg d_1 d_2 d_3 d_4 WAIT_TIME.

(** ** Buzzer: [buzz] *)

Fixpoint buzz_loop (i : nat) : trace :=
  match i with
  | O => []
  | S i' =>
      [ P1OUT_or 0x41; busy_loop SOUND_DELAY
      ; P1OUT_and 0xBE; busy_loop SOUND_DELAY ] ++ buzz_loop i'
  end.

Definition buzz : trace := buzz_loop (Z.to_nat BEEP_TIME_MOD).

(** ** Loop state and inputs *)

(** The variables of [main] that live across iterations.  [reading],
    [reading_pot], the voltages and [degree] are assigned before they are read
    in every iteration that uses them. *)
Record state : Type := {
  button_ctr : Z;   (* unsigned int *)
  buzz_ctr : Z      (* unsigned int *)
}.

Definition initial_state : state := {| button_ctr := 0; buzz_ctr := 0 |}.

(** What the hardware supplies during one iteration: the successive values
    read from [P2IN], and the contents of [p1_samples] when the loop reads
    them. *)
Record input : Type := {
  P2IN_reads : list Z;
  p1_samples : list Z
}.

(** The ADC10 converts to 10 bits. *)
Definition adc_sample (s : Z) : Prop := 0 <= s < 1024.

(** ** Button sense *)

(** The [while (button == 0x00)] loop: spin until a read of P2.1 is non-zero.
    A button that is never released within the supplied reads blocks the
    iteration. *)
Fixpoint wait_release (button : Z) (reads : list Z) : M unit :=
  if button =? 0 then
    match reads with
    | [] => None
    | r :: reads' =>
        emit [busy_loop WAIT_TIME] ;;
        wait_release (to_uint (Z.land r 0x02)) reads'
    end
  else ret tt.

Definition button_sense (reads : list Z) (button_ctr : Z) : M Z :=
  match reads with
  | [] => None
  | r :: reads' =>
      let button := to_uint (Z.land r 0x02) in
      let button_ctr := if button =? 0 then to_uint (button_ctr + 1) else button_ctr in
      wait_release button reads' ;;
      ret button_ctr
  end.

Section Firmware.

(** [log] of the C library, which is not part of the firmware. *)
Variable log : double -> double.

(** ** Thermistor conversion: [degree_conv] *)

Definition L_1 : double := dlit 1369 100.
Definition L_2 : double := dlit 921 100.
Definition L_3 : double := dlit 5125 1000.
Definition Y_1 : double := dneg (dlit 1818 100000).
Definition Y_2 : double := dlit 4 100.
Definition Y_3 : double := dlit 6451 1000000.
Definition G_2 : double := ddiv (dsub Y_2 Y_1) (dsub L_2 L_1).
Definition G_3 : double := ddiv (dsub Y_3 Y_1) (dsub L_3 L_1).
Definition C_COEFF : double :=
  ddiv (ddiv (dsub G_3 G_2) (dsub L_3 L_2)) (dadd (dadd L_1 L_2) L_3).
Definition B_COEFF : double :=
  dsub G_2 (dmul C_COEFF (dadd (dadd (dmul L_1 L_1) (dmul L_1 L_2)) (dmul L_2 L_2))).
Definition A_COEFF : double :=
  dsub Y_1 (dmul L_1 (dadd B_COEFF (dmul (dmul L_1 L_1) C_COEFF))).

Definition degree_conv (voltage : double) : option Z :=
  let resistance_therm :=
    ddiv (dmul (int_to_double 10000) voltage) (dsub (dlit 33 10) voltage) in
  let res_log := log resistance_therm in
  let degree :=
    ddiv (int_to_double 1)
         (dadd (dadd A_COEFF (dmul B_COEFF res_log))
               (dmul (dmul (dmul C_COEFF res_log) res_log) res_log)) in
  double_to_int (dmul degree (int_to_double 100)).

(** ** The body of the [for (;;)] loop of [main] *)

(** The value shown for a [double] voltage in millivolts: the voltage itself,
    or the temperature computed from it. *)
Definition show (cfg : config) (voltage : double) : M unit :=
  if READ_VOLTAGE_OR_DEG cfg then
    number <- lift (double_to_int voltage) ;;
    write_4digit number WAIT_TIME
  else
    let voltage_act := ddiv voltage (int_to_double 1000) in
    degree <- lift (degree_conv voltage_act) ;;
    write_4digit degree WAIT_TIME.

(** The temperature threshold control: the new [buzz_ctr]. *)
Definition threshold_control (cfg : config) (reading reading_pot buzz_ctr : Z) : M Z :=
  if TEMP_THRESHOLD_TOGGLE cfg && (reading_pot <? reading)
     && (buzz_ctr <? to_uint (BUZZER_LIMIT cfg))
  then emit buzz ;; ret (to_uint (buzz_ctr + 1))
  else if reading_pot <? reading then ret (to_uint (buzz_ctr + 1))
  else ret 0.

Definition loop_body (cfg : config) (inp : input) (st : state) : M state :=
  button_ctr <- button_sense (P2IN_reads inp) (button_ctr st) ;;
  if button_ctr mod 3 =? 2 then
    inject_7seg EMPTY_X EMPTY_X EMPTY_X EMPTY_X WAIT_TIME ;;
    ret {| button_ctr := button_ctr; buzz_ctr := buzz_ctr st |}
  else
    emit [ADC10_disable; ADC10SA_write 0x200; P1OUT_or 0x01; ADC10_start] ;;
    let reading := to_int (nth 2 (p1_samples inp) 0) in
    let reading_pot := to_int (nth 0 (p1_samples inp) 0) in
    emit [P1OUT_and (Z.lnot 0x01)] ;;
    let voltage := dmul (int_to_double reading) VOLTAGE_COEFF in
    let voltage_pot := dmul (int_to_double reading_pot) VOLTAGE_COEFF in
    if button_ctr mod 3 =? 1 then
      show cfg voltage_pot ;;
      ret {| button_ctr := button_ctr; buzz_ctr := buzz_ctr st |}
    else
      buzz_ctr <- threshold_control cfg reading reading_pot (buzz_ctr st) ;;
      show cfg voltage ;;
      ret {| button_ctr := button_ctr; buzz_ctr := buzz_ctr |}.

(** The loop, unrolled over the inputs of finitely many iterations; the
    result lists the state after each of them. *)
Fixpoint main_loop (cfg : config) (inps : list input) (st : state) : M (list state) :=
  match inps with
  | [] => ret []
  | inp :: inps' =>
      st' <- loop_body cfg inp st ;;
      sts <- main_loop cfg inps' st' ;;
      ret (st' :: sts)
  end.

End Firmware.

(** ** What the shift registers see

    [P2OUT] drives the serial data line (bit 0), the shift clock [sck]
    (bit 3) and the register clock [rck] (bit 4) of the 74HC595 chain.  A
    rising edge of [sck] shifts the data line in; a rising edge of [rck]
    latches the shifted word into the output register. *)

Inductive bus_event : Type :=
| Shift (b : bool)
| Latch.

(** The value [P2OUT] holds after a trace, given the value before it. *)
Fixpoint last_P2OUT (prev : Z) (t : trace) : Z :=
  match t with
  | [] => prev
  | P2OUT_write v :: t' => last_P2OUT v t'
  | _ :: t' => last_P2OUT prev t'
  end.

Definition rising (line : Z) (prev v : Z) : bool :=
  negb (Z.testbit prev line) && Z.testbit v line.

Fixpoint bus (prev : Z) (t : trace) : list bus_event :=
  match t with
  | [] => []
  | P2OUT_write v :: t' =>
      (if rising 3 prev v then [Shift (Z.testbit v 0)] else [])
      ++ (if rising 4 prev v then [Latch] else [])
      ++ bus v t'
  | _ :: t' => bus prev t'
  end.

(** The bits of [data], least significant first. *)
Definition lsb_first (n : nat) (data : Z) : list bool :=
  map (fun k => Z.testbit data (Z.of_nat k)) (seq 0 n).

(** ** Vocabulary of the statements *)

(** The locals [d_1], [d_2], [d_3], [d_4] of [write_4digit], in the order in
    which they are passed to [inject_7seg]. *)
Definition digits4 (number : Z) : Z * Z * Z * Z :=
  ( to_uint (Z.rem (Z.quot number 1000) 10)
  , to_uint (Z.rem (Z.quot number 100) 10)
  , to_uint (Z.rem (Z.quot number 10) 10)
  , to_uint (Z.rem number 10) ).

(** The events of one pass of [inject_7seg] over the four positions, for the
    patterns read from the table. *)
Definition display_pass (p_1 p_2 p_3 p_4 : Z) : trace :=
  write_7seg (to_int p_1) 4 ++ [delay_cycles 10000]
  ++ write_7seg (to_int p_2) 3 ++ [delay_cycles 10000]
  ++ write_7seg (to_int p_3) 2 ++ [delay_cycles 10000]
  ++ write_7seg (to_int p_4) 1 ++ [delay_cycles 10000].

(** The event drives P1.6, the buzzer pin, high. *)
Definition buzzer_on (e : event) : bool :=
  match e with
  | P1OUT_or m => Z.testbit m 6
  | _ => false
  end.

(** The event starts an analog conversion. *)
Definition adc_started (e : event) : bool :=
  match e with
  | ADC10_start => true
  | _ => false
  end.

(** The event belongs to the display: a write to [P2OUT] or a cycle delay. *)
Definition display_event (e : event) : bool :=
  match e with
  | P2OUT_write _ | delay_cycles _ => true
  | _ => false
  end.

(** The event is a spin of the button-hold loop. *)
Definition spin_event (e : event) : bool :=
  match e with
  | busy_loop _ => true
  | _ => false
  end.

(** The events of the temperature checking subroutine. *)
Definition sampling : trace :=
  [ADC10_disable; ADC10SA_write 0x200; P1OUT_or 0x01; ADC10_start;
   P1OUT_and (Z.lnot 0x01)].

(** The voltage computed from a raw sample, as the loop does. *)
Definition voltage_of (sample : Z) : double :=
  dmul (int_to_double (to_int sample)) VOLTAGE_COEFF.

(** The millivolt value shown for a raw sample agrees with the exact product
    by 2.96, truncated. *)
Definition millivolts_exact (sample : Z) : bool :=
  match double_to_int (voltage_of sample) with
  | Some n => n =? sample * 296 / 100
  | None => false
  end.

(** The build with [BUZZER_LIMIT] set to 2, and an iteration input with the
    button released, the primary sample at 600 and the potentiometer sample
    at 500. *)
Definition limit2_config : config :=
  {| READ_VOLTAGE_OR_DEG := true; TEMP_THRESHOLD_TOGGLE := true; BUZZER_LIMIT := 2 |}.

Definition exceeding_input : input :=
  {| P2IN_reads := [0x02]; p1_samples := [500; 0; 600] |}.

(** The millivolt builds do not call [log]; closed runs of such a build are
    given this function in its place. *)
Definition log_unused : double -> double := fun _ => S754_nan.

(** The button test of the loop, [button == 0x00], on a value read from
    [P2IN]: P2.1 is low while S101 is pressed. *)
Definition pressed (r : Z) : bool := to_uint (Z.land r 0x02) =? 0.

(** The value of [P1OUT] after a trace, given the value before it. *)
Fixpoint P1OUT_after (p : Z) (t : trace) : Z :=
  match t with
  | [] => p
  | P1OUT_or m :: t' => P1OUT_after (Z.lor p m) t'
  | P1OUT_and m :: t' => P1OUT_after (Z.land p m) t'
  | _ :: t' => P1OUT_after p t'
  end.

(** The values written to [P2OUT], in order. *)
Fixpoint P2OUT_writes (t : trace) : list Z :=
  match t with
  | [] => []
  | P2OUT_write v :: t' => v :: P2OUT_writes t'
  | _ :: t' => P2OUT_writes t'
  end.

(** The cycles spent in [__delay_cycles]. *)
Fixpoint delay_total (t : trace) : Z :=
  match t with
  | [] => 0
  | delay_cycles n :: t' => n + delay_total t'
  | _ :: t' => delay_total t'
  end.

(** The number of events of a class in a trace. *)
Definition count (f : event -> bool) (t : trace) : nat := length (filter f t).

(** A value written to [P2OUT] that touches only P2.0, P2.3 and P2.4, the
    pins that [main] makes outputs. *)
Definition output_pins_only (v : Z) : bool := Z.land v (Z.lnot 0x19) =? 0.

(** What one call of [write_7seg] puts on the bus for a pattern and a
    position in 1..4. *)
Definition frame (pattern position : Z) : list bus_event :=
  map Shift ([false; false; false; false]
             ++ map (Z.eqb position) [1; 2; 3; 4]
             ++ lsb_first 8 pattern)
  ++ [Latch].

(** The entry of the table for a decimal digit. *)
Definition pattern_of (d : Z) : Z := nth (Z.to_nat d) index 0.

(** An iteration input with the button released, 10-bit samples, and the
    primary sample above the potentiometer sample. *)
Definition released_exceeding (inp : input) : Prop :=
  (exists r rest, P2IN_reads inp = r :: rest /\ pressed r = false)
  /\ adc_sample (nth 0 (p1_samples inp) 0)
  /\ adc_sample (nth 2 (p1_samples inp) 0)
  /\ nth 0 (p1_samples inp) 0 < nth 2 (p1_samples inp) 0.

(** A [log] that returns minus infinity at zero, as the C library does, and
    is otherwise arbitrary here. *)
Definition log_pole : double -> double :=
  fun x => match x with
           | S754_zero _ => S754_infinity true
           | _ => x
           end.

(** The build without the threshold feature, and the degree build. *)
Definition threshold_off_config : config :=
  {| READ_VOLTAGE_OR_DEG := true; TEMP_THRESHOLD_TOGGLE := false; BUZZER_LIMIT := 5 |}.

Definition degree_config : config :=
  {| READ_VOLTAGE_OR_DEG := false; TEMP_THRESHOLD_TOGGLE := true; BUZZER_LIMIT := 5 |}.

(** * Properties *)

(** ** Machine integers *)

Lemma to_uint_small (z : Z) : 0 <= z < UINT_MODULUS -> to_uint z = z.
Proof. intros H. unfold to_uint. now apply Z.mod_small. Qed.

Lemma to_int_small (z : Z) : INT_MIN <= z <= INT_MAX -> to_int z = z.
Proof.
  unfold to_int, INT_MIN, INT_MAX, UINT_MODULUS. intros H.
  rewrite Z.mod_small; lia.
Qed.

Lemma to_int_range (z : Z) : INT_MIN <= to_int z <= INT_MAX.
Proof.
  unfold to_int, INT_MIN, INT_MAX, UINT_MODULUS.
  pose proof (Z.mod_pos_bound (z + 32768) 65536). lia.
Qed.

(** A decrement in [int], with its wrap-around, keeps a value away from the
    window [1 .. k]. *)
Lemma to_int_pred_away (z k : Z) :
  INT_MIN <= z <= INT_MAX -> 0 <= k < INT_MAX ->
  z <= 0 \/ k + 1 < z ->
  to_int (z - 1) <= 0 \/ k < to_int (z - 1).
Proof.
  intros H Hk Hz. destruct (Z.eq_dec z INT_MIN) as [->|Hn].
  - right. change (to_int (INT_MIN - 1)) with INT_MAX. lia.
  - rewrite to_int_small; unfold INT_MIN, INT_MAX in *; lia.
Qed.

Lemma land_1_bit (x : Z) : to_uint (Z.land x 1) = Z.b2z (Z.testbit x 0).
Proof.
  change 1 with (Z.ones 1) at 1. rewrite Z.land_ones by lia.
  rewrite Z.bit0_mod. change (2 ^ 1) with 2.
  apply to_uint_small. unfold UINT_MODULUS.
  pose proof (Z.mod_pos_bound x 2). lia.
Qed.

(** ** The serial bus *)

Lemma bus_app (t1 t2 : trace) : forall prev,
  bus prev (t1 ++ t2) = bus prev t1 ++ bus (last_P2OUT prev t1) t2.
Proof.
  induction t1 as [|e t1 IH]; intros prev; [reflexivity|].
  destruct e; simpl; try apply IH.
  rewrite IH, !app_assoc. reflexivity.
Qed.

(** A write of a value with both clocks low never produces an edge. *)
Lemma rising_low (line prev v : Z) : Z.testbit v line = false -> rising line prev v = false.
Proof. intros H. unfold rising. rewrite H. apply andb_false_r. Qed.

(** The first loop shifts in four zeros and leaves the lines low. *)
Lemma bus_fill_lower (prev : Z) :
  bus prev (fill_lower 4) = [Shift false; Shift false; Shift false; Shift false]
  /\ last_P2OUT prev (fill_lower 4) = 0.
Proof.
  split; [|reflexivity].
  cbn [fill_lower app bus].
  rewrite (rising_low 3 prev 0), (rising_low 4 prev 0) by reflexivity.
  reflexivity.
Qed.

(** One pass of the third loop, for a data bit [b]: the bit is shifted in
    once, whatever the lines were before. *)
Lemma bus_bit_pass (b : bool) (prev : Z) (rest : trace) :
  bus prev (delay_cycles 1 :: P2OUT_write (Z.b2z b)
            :: P2OUT_write (Z.lor sck (Z.b2z b)) :: delay_cycles 1
            :: P2OUT_write (Z.b2z b) :: delay_cycles 1 :: rest)
  = Shift b :: bus (Z.b2z b) rest.
Proof.
  cbn [bus].
  rewrite (rising_low 3 prev (Z.b2z b)), (rising_low 4 prev (Z.b2z b))
    by (destruct b; reflexivity).
  destruct b; reflexivity.
Qed.

Lemma bus_shift_message (n : nat) : forall (data prev : Z) (rest : trace),
  exists last,
    bus prev (shift_message n data ++ rest)
    = map Shift (lsb_first n data) ++ bus last rest
    /\ (Z.testbit prev 4 = false -> Z.testbit last 4 = false).
Proof.
  unfold lsb_first.
  induction n as [|n IH]; intros data prev rest.
  - exists prev. split; [reflexivity | auto].
  - cbn [shift_message]. cbv zeta. rewrite land_1_bit.
    destruct (IH (Z.shiftr data 1) (Z.b2z (Z.testbit data 0)) rest) as [last [E L]].
    exists last. split.
    + cbn [app]. rewrite bus_bit_pass, E.
      cbn [seq map app]. f_equal. f_equal.
      rewrite <- seq_shift, !map_map. apply map_ext. intros k.
      rewrite Z.shiftr_spec by lia. rewrite Nat2Z.inj_succ. reflexivity.
    + intros _. apply L. destruct (Z.testbit data 0); reflexivity.
Qed.

(** The last write of [write_7seg] raises the register clock. *)
Lemma bus_latch (prev : Z) :
  Z.testbit prev 4 = false -> bus prev [P2OUT_write rck; delay_cycles 1] = [Latch].
Proof.
  intros H. cbn [bus]. rewrite (rising_low 3 prev rck) by reflexivity.
  unfold rising. rewrite H. reflexivity.
Qed.

(** Without a pass on which the local [index] equals 1, the second loop is
    the first one again. *)
Lemma fill_upper_none (n : nat) : forall idx,
  (Z.of_nat n <= 4) -> INT_MIN <= idx <= INT_MAX ->
  idx <= 0 \/ Z.of_nat n < idx ->
  fill_upper n idx = fill_lower n.
Proof.
  induction n as [|n IH]; intros idx Hn Hr Hi; [reflexivity|].
  cbn [fill_upper fill_lower].
  replace (idx =? 1) with false by (symmetry; apply Z.eqb_neq; lia).
  rewrite IH; [reflexivity | lia | apply to_int_range |].
  apply to_int_pred_away; unfold INT_MIN, INT_MAX in *; lia.
Qed.

(** C4.  For a digit-select argument in 1..4, [write_7seg] shifts out 16
    bits: four zeros, then a nibble whose k-th bit (k = 1..4, in clock order)
    is set exactly when [index = k], then the low 8 bits of [data], least
    significant first; after them it raises the register clock once. *)
Theorem write_7seg_protocol (data idx prev : Z) :
  1 <= idx <= 4 ->
  bus prev (write_7seg data idx)
  = map Shift ([false; false; false; false]
               ++ map (Z.eqb idx) [1; 2; 3; 4]
               ++ lsb_first 8 data)
    ++ [Latch]
  /\ count_occ bool_dec (map (Z.eqb idx) [1; 2; 3; 4]) true = 1%nat
  /\ length (filter (fun e => match e with Shift _ => true | Latch => false end)
                    (bus prev (write_7seg data idx))) = 16%nat.
Proof.
  intros Hi.
  assert (E : bus prev (write_7seg data idx)
              = map Shift ([false; false; false; false]
                           ++ map (Z.eqb idx) [1; 2; 3; 4] ++ lsb_first 8 data)
                ++ [Latch]).
  { unfold write_7seg.
    rewrite bus_app. destruct (bus_fill_lower prev) as [-> ->].
    rewrite bus_app.
    destruct (bus_shift_message 8 data (last_P2OUT 0 (fill_upper 4 idx))
                [P2OUT_write rck; delay_cycles 1]) as [last [-> L]].
    rewrite bus_latch.
    - rewrite !map_app, <- !app_assoc. f_equal. f_equal.
      assert (C : idx = 1 \/ idx = 2 \/ idx = 3 \/ idx = 4) by lia.
      destruct C as [->|[->|[->| ->]]]; reflexivity.
    - apply L.
      assert (C : idx = 1 \/ idx = 2 \/ idx = 3 \/ idx = 4) by lia.
      destruct C as [->|[->|[->| ->]]]; reflexivity. }
  split; [exact E|]. split.
  - assert (C : idx = 1 \/ idx = 2 \/ idx = 3 \/ idx = 4) by lia.
    destruct C as [->|[->|[->| ->]]]; reflexivity.
  - rewrite E. reflexivity.
Qed.

(** C10.  For a digit-select argument outside 1..4, [write_7seg] still
    shifts out 16 bits and raises the register clock, and the four
    digit-select bits are all zero. *)
Theorem write_7seg_no_select (data idx prev : Z) :
  INT_MIN <= idx <= INT_MAX ->
  idx < 1 \/ 4 < idx ->
  bus prev (write_7seg data idx)
  = map Shift ([false; false; false; false]
               ++ [false; false; false; false]
               ++ lsb_first 8 data)
    ++ [Latch]
  /\ length (filter (fun e => match e with Shift _ => true | Latch => false end)
                    (bus prev (write_7seg data idx))) = 16%nat.
Proof.
  intros Hr Hi.
  assert (E : bus prev (write_7seg data idx)
              = map Shift ([false; false; false; false]
                           ++ [false; false; false; false] ++ lsb_first 8 data)
                ++ [Latch]).
  { unfold write_7seg.
    rewrite (fill_upper_none 4 idx) by (try assumption; simpl; lia).
    rewrite bus_app. destruct (bus_fill_lower prev) as [-> ->].
    rewrite bus_app. destruct (bus_fill_lower 0) as [-> ->].
    destruct (bus_shift_message 8 data 0 [P2OUT_write rck; delay_cycles 1])
      as [last [-> L]].
    rewrite bus_latch by (apply L; reflexivity).
    rewrite !map_app, <- !app_assoc. reflexivity. }
  split; [exact E|]. rewrite E. reflexivity.
Qed.

(** ** The digit renderer *)

Lemma repeatM_some (t : trace) (n : nat) :
  repeatM n (Some (tt, t)) = Some (tt, concat (repeat t n)).
Proof.
  induction n as [|n IH]; [reflexivity|].
  cbn [repeatM repeat concat]. unfold bind at 1. rewrite IH. reflexivity.
Qed.

Lemma repeatM_none (n : nat) : n <> O -> repeatM n None = None.
Proof. destruct n; [congruence | reflexivity]. Qed.

(** [i = delay*0.4] with [delay = WAIT_TIME]: 80 passes. *)
Lemma inject_count :
  double_to_int (dmul (int_to_double WAIT_TIME) (dlit 4 10)) = Some 80.
Proof. vm_compute. reflexivity. Qed.

Lemma inject_pass_some (d_1 d_2 d_3 d_4 p_1 p_2 p_3 p_4 : Z) :
  index_at d_1 = Some p_1 -> index_at d_2 = Some p_2 ->
  index_at d_3 = Some p_3 -> index_at d_4 = Some p_4 ->
  inject_pass d_1 d_2 d_3 d_4 = Some (tt, display_pass p_1 p_2 p_3 p_4).
Proof.
  intros E1 E2 E3 E4. unfold inject_pass. rewrite E1, E2, E3, E4.
  unfold display_pass. cbv [bind lift emit]. reflexivity.
Qed.

Lemma inject_pass_none (d_1 d_2 d_3 d_4 : Z) :
  index_at d_1 = None \/ index_at d_2 = None \/
  index_at d_3 = None \/ index_at d_4 = None ->
  inject_pass d_1 d_2 d_3 d_4 = None.
Proof.
  unfold inject_pass, bind, lift, emit.
  intros [E|[E|[E|E]]]; rewrite E;
    repeat (match goal with |- context [index_at ?d] => destruct (index_at d) end);
    reflexivity.
Qed.

Lemma inject_7seg_some (d_1 d_2 d_3 d_4 p_1 p_2 p_3 p_4 : Z) :
  index_at d_1 = Some p_1 -> index_at d_2 = Some p_2 ->
  index_at d_3 = Some p_3 -> index_at d_4 = Some p_4 ->
  inject_7seg d_1 d_2 d_3 d_4 WAIT_TIME
  = Some (tt, concat (repeat (display_pass p_1 p_2 p_3 p_4) 80)).
Proof.
  intros E1 E2 E3 E4. unfold inject_7seg.
  rewrite inject_count, (inject_pass_some _ _ _ _ _ _ _ _ E1 E2 E3 E4).
  unfold lift, bind. change (Z.to_nat 80) with 80%nat.
  rewrite repeatM_some. reflexivity.
Qed.

Lemma inject_7seg_none (d_1 d_2 d_3 d_4 : Z) :
  index_at d_1 = None \/ index_at d_2 = None \/
  index_at d_3 = None \/ index_at d_4 = None ->
  inject_7seg d_1 d_2 d_3 d_4 WAIT_TIME = None.
Proof.
  intros E. unfold inject_7seg.
  rewrite inject_count, (inject_pass_none _ _ _ _ E).
  unfold lift, bind. change (Z.to_nat 80) with 80%nat.
  rewrite repeatM_none by discriminate. reflexivity.
Qed.

Lemma write_4digit_digits4 (number delay : Z) :
  write_4digit number delay
  = let '(d_1, d_2, d_3, d_4) := digits4 number in
    inject_7seg d_1 d_2 d_3 d_4 WAIT_TIME.
Proof. reflexivity. Qed.

(** A decimal digit is a valid subscript of the table. *)
Lemma index_at_digit (d : Z) : 0 <= d <= 9 -> exists p, index_at d = Some p /\ 0 <= p < 256.
Proof.
  intros H.
  assert (C : d = 0 \/ d = 1 \/ d = 2 \/ d = 3 \/ d = 4 \/ d = 5 \/ d = 6
              \/ d = 7 \/ d = 8 \/ d = 9) by lia.
  destruct C as [->|[->|[->|[->|[->|[->|[->|[->|[->| ->]]]]]]]]];
    vm_compute; eexists; (split; [reflexivity | split; [discriminate | reflexivity]]).
Qed.

(** A subscript past the table. *)
Lemma index_at_past (d : Z) : 11 <= d -> index_at d = None.
Proof.
  intros H. unfold index_at. apply nth_error_None.
  change (length index) with 11%nat. lia.
Qed.

(** The digits of a non-negative number. *)
Lemma digits4_nonneg (N : Z) :
  0 <= N ->
  digits4 N = ((N / 1000) mod 10, (N / 100) mod 10, (N / 10) mod 10, N mod 10).
Proof.
  intros H. unfold digits4.
  rewrite !Z.quot_div_nonneg by lia.
  rewrite !Z.rem_mod_nonneg by (try apply Z.div_pos; lia).
  rewrite !to_uint_small; [reflexivity | | | |];
    unfold UINT_MODULUS;
    match goal with |- 0 <= ?a mod 10 < _ => pose proof (Z.mod_pos_bound a 10); lia end.
Qed.

(** A non-negative number is always shown. *)
Lemma write_4digit_nonneg (N delay : Z) :
  0 <= N -> exists t, write_4digit N delay = Some (tt, t).
Proof.
  intros H. rewrite write_4digit_digits4, (digits4_nonneg N H).
  assert (B : forall a, 0 <= a mod 10 <= 9)
    by (intros a; pose proof (Z.mod_pos_bound a 10); lia).
  destruct (index_at_digit _ (B (N / 1000))) as [p1 [E1 _]].
  destruct (index_at_digit _ (B (N / 100))) as [p2 [E2 _]].
  destruct (index_at_digit _ (B (N / 10))) as [p3 [E3 _]].
  destruct (index_at_digit _ (B N)) as [p4 [E4 _]].
  eexists. apply (inject_7seg_some _ _ _ _ _ _ _ _ E1 E2 E3 E4).
Qed.

Lemma digits4_mod_10000 (N : Z) :
  0 <= N -> digits4 N = digits4 (N mod 10000).
Proof.
  intros H. pose proof (Z.mod_pos_bound N 10000).
  rewrite (digits4_nonneg N), (digits4_nonneg (N mod 10000)) by lia.
  assert (E1 : (N / 1000) mod 10 = (N mod 10000 / 1000) mod 10)
    by (Z.div_mod_to_equations; lia).
  assert (E2 : (N / 100) mod 10 = (N mod 10000 / 100) mod 10)
    by (Z.div_mod_to_equations; lia).
  assert (E3 : (N / 10) mod 10 = (N mod 10000 / 10) mod 10)
    by (Z.div_mod_to_equations; lia).
  assert (E4 : N mod 10 = (N mod 10000) mod 10)
    by (Z.div_mod_to_equations; lia).
  rewrite E1, E2, E3, E4. reflexivity.
Qed.

(** The remainder of a negative dividend, stored in an [unsigned int]. *)
Lemma to_uint_rem_neg (x : Z) :
  x <= 0 ->
  (Z.rem x 10 = 0 /\ to_uint (Z.rem x 10) = 0)
  \/ (Z.rem x 10 <> 0 /\ 65527 <= to_uint (Z.rem x 10) <= 65535).
Proof.
  intros H. unfold to_uint, UINT_MODULUS.
  destruct (Z.eq_dec (Z.rem x 10) 0) as [E|E].
  - left. rewrite E. split; reflexivity.
  - right. split; [assumption|].
    assert (R : -9 <= Z.rem x 10 <= -1) by (Z.quot_rem_to_equations; lia).
    replace (Z.rem x 10) with (Z.rem x 10 + 65536 - 1 * 65536) by lia.
    rewrite Zminus_mod, Z_mod_mult, Z.sub_0_r, Z.mod_mod by lia.
    rewrite Z.mod_small; lia.
Qed.

(** C2, at a negative input.  For [-1234] the four remainders are negative;
    stored in [unsigned int] they are 65535, 65534, 65533, 65532, not the
    digits 1, 2, 3, 4 of the magnitude, and the table reads of [inject_7seg]
    fall outside the table. *)
Theorem write_4digit_negative_example :
  digits4 (-1234) = (65535, 65534, 65533, 65532)
  /\ digits4 (-1234)
     <> ((Z.abs (-1234) / 1000) mod 10, (Z.abs (-1234) / 100) mod 10,
         (Z.abs (-1234) / 10) mod 10, Z.abs (-1234) mod 10)
  /\ index_at 65535 = None
  /\ write_4digit (-1234) WAIT_TIME = None.
Proof.
  split; [reflexivity|]. split; [discriminate|]. split; [reflexivity|].
  rewrite write_4digit_digits4. apply inject_7seg_none. left. reflexivity.
Qed.

(** The same two products in IEEE 754 binary32, for toolchains whose
    [double] is single precision: 1480 millivolts and 80 passes again. *)
Remark single_precision_agrees :
  double_to_int (SFmul 24 128 (binary_normalize 24 128 500 0 false)
                       (SFdiv 24 128 (binary_normalize 24 128 296 0 false)
                                     (binary_normalize 24 128 100 0 false)))
  = Some 1480
  /\ double_to_int (SFmul 24 128 (binary_normalize 24 128 WAIT_TIME 0 false)
                          (SFdiv 24 128 (binary_normalize 24 128 4 0 false)
                                        (binary_normalize 24 128 10 0 false)))
     = Some 80.
Proof. split; vm_compute; reflexivity. Qed.

(** C9, as the code has it.  For a non-negative number the four digits are
    decimal digits and the table reads are in bounds.  For a negative number
    that is not a multiple of 10000 some remainder is negative; stored in an
    [unsigned int] it is at least 65527 and the table read is out of bounds.
    For a negative multiple of 10000 the four digits are 0. *)
Theorem render_table_bounds (N delay : Z) :
  exists d_1 d_2 d_3 d_4,
    digits4 N = (d_1, d_2, d_3, d_4)
    /\ (0 <= N ->
        Forall (fun d => 0 <= d <= 9 /\ index_at d <> None) [d_1; d_2; d_3; d_4]
        /\ write_4digit N delay <> None)
    /\ (N < 0 -> Z.rem N 10000 <> 0 ->
        Exists (fun d => 65527 <= d <= 65535 /\ index_at d = None)
               [d_1; d_2; d_3; d_4]
        /\ write_4digit N delay = None)
    /\ (N < 0 -> Z.rem N 10000 = 0 ->
        (d_1, d_2, d_3, d_4) = (0, 0, 0, 0) /\ write_4digit N delay <> None).
Proof.
  do 4 eexists. split; [reflexivity|]. split; [|split].
  - intros H.
    pose proof (digits4_nonneg N H) as D. unfold digits4 in D.
    injection D as -> -> -> ->.
    assert (B : forall a, 0 <= a mod 10 <= 9)
      by (intros a; pose proof (Z.mod_pos_bound a 10); lia).
    destruct (index_at_digit _ (B (N / 1000))) as [p1 [E1 _]].
    destruct (index_at_digit _ (B (N / 100))) as [p2 [E2 _]].
    destruct (index_at_digit _ (B (N / 10))) as [p3 [E3 _]].
    destruct (index_at_digit _ (B N)) as [p4 [E4 _]].
    split.
    + repeat constructor; try apply B; congruence.
    + rewrite write_4digit_digits4, (digits4_nonneg N H).
      rewrite (inject_7seg_some _ _ _ _ _ _ _ _ E1 E2 E3 E4). discriminate.
  - intros H R.
    assert (Q1 : Z.quot N 1000 <= 0) by (Z.quot_rem_to_equations; lia).
    assert (Q2 : Z.quot N 100 <= 0) by (Z.quot_rem_to_equations; lia).
    assert (Q3 : Z.quot N 10 <= 0) by (Z.quot_rem_to_equations; lia).
    assert (Q4 : N <= 0) by lia.
    destruct (to_uint_rem_neg _ Q1) as [[Z1 _]|[_ B1]];
      [|split; [apply Exists_cons_hd
               |rewrite write_4digit_digits4; apply inject_7seg_none; left];
        try (split; [exact B1|]); apply index_at_past; lia].
    destruct (to_uint_rem_neg _ Q2) as [[Z2 _]|[_ B2]];
      [|split; [apply Exists_cons_tl, Exists_cons_hd
               |rewrite write_4digit_digits4; apply inject_7seg_none; right; left];
        try (split; [exact B2|]); apply index_at_past; lia].
    destruct (to_uint_rem_neg _ Q3) as [[Z3 _]|[_ B3]];
      [|split; [apply Exists_cons_tl, Exists_cons_tl, Exists_cons_hd
               |rewrite write_4digit_digits4; apply inject_7seg_none;
                right; right; left];
        try (split; [exact B3|]); apply index_at_past; lia].
    destruct (to_uint_rem_neg _ Q4) as [[Z4 _]|[_ B4]];
      [|split; [apply Exists_cons_tl, Exists_cons_tl, Exists_cons_tl, Exists_cons_hd
               |rewrite write_4digit_digits4; apply inject_7seg_none;
                right; right; right];
        try (split; [exact B4|]); apply index_at_past; lia].
    exfalso. apply R. Z.quot_rem_to_equations. lia.
  - intros H R.
    assert (Z1 : Z.rem (Z.quot N 1000) 10 = 0) by (Z.quot_rem_to_equations; lia).
    assert (Z2 : Z.rem (Z.quot N 100) 10 = 0) by (Z.quot_rem_to_equations; lia).
    assert (Z3 : Z.rem (Z.quot N 10) 10 = 0) by (Z.quot_rem_to_equations; lia).
    assert (Z4 : Z.rem N 10 = 0) by (Z.quot_rem_to_equations; lia).
    rewrite write_4digit_digits4. unfold digits4. rewrite Z1, Z2, Z3, Z4.
    split; [reflexivity|].
    change (to_uint 0) with 0.
    rewrite (inject_7seg_some 0 0 0 0 0xFC 0xFC 0xFC 0xFC) by reflexivity.
    discriminate.
Qed.

(** C9 fails as stated at [-10000]: the number is a negative [int], its four
    digits are 0 and every table read is in bounds. *)
Lemma negative_multiple_in_bounds :
  INT_MIN <= -10000 < 0
  /\ digits4 (-10000) = (0, 0, 0, 0)
  /\ index_at 0 = Some 0xFC
  /\ write_4digit (-10000) WAIT_TIME <> None.
Proof.
  split; [unfold INT_MIN; lia|]. split; [reflexivity|]. split; [reflexivity|].
  rewrite write_4digit_digits4. change (digits4 (-10000)) with (0, 0, 0, 0).
  cbv beta iota.
  rewrite (inject_7seg_some 0 0 0 0 0xFC 0xFC 0xFC 0xFC) by reflexivity.
  discriminate.
Qed.

(** ** Classes of events *)

Lemma bind_some {A B : Type} (c : M A) (k : A -> M B) (b : B) (t : trace) :
  bind c k = Some (b, t) ->
  exists a t1 t2, c = Some (a, t1) /\ k a = Some (b, t2) /\ t = t1 ++ t2.
Proof.
  unfold bind. destruct c as [[a t1]|]; [|discriminate].
  destruct (k a) as [[b' t2]|] eqn:E; [|discriminate].
  intros H. injection H as <- <-. exists a, t1, t2. auto.
Qed.

Lemma fill_lower_display (n : nat) : forallb display_event (fill_lower n) = true.
Proof. induction n as [|n IH]; [reflexivity | exact IH]. Qed.

Lemma fill_upper_display (n : nat) : forall idx,
  forallb display_event (fill_upper n idx) = true.
Proof.
  induction n as [|n IH]; intros idx; [reflexivity|].
  cbn [fill_upper]. rewrite forallb_app, IH.
  destruct (idx =? 1); reflexivity.
Qed.

Lemma shift_message_display (n : nat) : forall data,
  forallb display_event (shift_message n data) = true.
Proof.
  induction n as [|n IH]; intros data; [reflexivity|].
  cbn [shift_message]. cbv zeta. rewrite forallb_app, IH. reflexivity.
Qed.

Lemma write_7seg_display (data idx : Z) :
  forallb display_event (write_7seg data idx) = true.
Proof.
  unfold write_7seg.
  rewrite !forallb_app, fill_lower_display, fill_upper_display,
    shift_message_display.
  reflexivity.
Qed.

Lemma display_pass_display (p_1 p_2 p_3 p_4 : Z) :
  forallb display_event (display_pass p_1 p_2 p_3 p_4) = true.
Proof.
  unfold display_pass. rewrite !forallb_app, !write_7seg_display. reflexivity.
Qed.

Lemma inject_pass_display (d_1 d_2 d_3 d_4 : Z) (u : unit) (t : trace) :
  inject_pass d_1 d_2 d_3 d_4 = Some (u, t) -> forallb display_event t = true.
Proof.
  destruct (index_at d_1) as [p_1|] eqn:E1;
    [|rewrite inject_pass_none by auto; discriminate].
  destruct (index_at d_2) as [p_2|] eqn:E2;
    [|rewrite inject_pass_none by auto; discriminate].
  destruct (index_at d_3) as [p_3|] eqn:E3;
    [|rewrite inject_pass_none by auto; discriminate].
  destruct (index_at d_4) as [p_4|] eqn:E4;
    [|rewrite inject_pass_none by auto; discriminate].
  rewrite (inject_pass_some _ _ _ _ _ _ _ _ E1 E2 E3 E4).
  intros H. injection H as <- <-. apply display_pass_display.
Qed.

Lemma repeatM_display (body : M unit) (n : nat) :
  (forall u t, body = Some (u, t) -> forallb display_event t = true) ->
  forall u t, repeatM n body = Some (u, t) -> forallb display_event t = true.
Proof.
  intros Hb. induction n as [|n IH]; intros u t H.
  - injection H as <- <-. reflexivity.
  - cbn [repeatM] in H. apply bind_some in H.
    destruct H as [a [t1 [t2 [H1 [H2 ->]]]]].
    rewrite forallb_app, (Hb _ _ H1), (IH _ _ H2). reflexivity.
Qed.

Lemma inject_7seg_display (d_1 d_2 d_3 d_4 delay : Z) (u : unit) (t : trace) :
  inject_7seg d_1 d_2 d_3 d_4 delay = Some (u, t) ->
  forallb display_event t = true.
Proof.
  unfold inject_7seg. intros H. apply bind_some in H.
  destruct H as [i [t1 [t2 [H1 [H2 ->]]]]].
  unfold lift in H1. destruct (double_to_int _); [|discriminate].
  injection H1 as <- <-.
  apply (repeatM_display _ _ (inject_pass_display d_1 d_2 d_3 d_4) _ _ H2).
Qed.

Lemma write_4digit_display (o : option Z) (delay : Z) (u : unit) (t : trace) :
  (number <- lift o ;; write_4digit number delay) = Some (u, t) ->
  forallb display_event t = true.
Proof.
  intros H. apply bind_some in H. destruct H as [n [t1 [t2 [H1 [H2 ->]]]]].
  destruct o; [|discriminate H1]. injection H1 as <- <-.
  apply (inject_7seg_display _ _ _ _ _ _ _ H2).
Qed.

Lemma show_display (log : double -> double) (cfg : config) (v : double)
      (u : unit) (t : trace) :
  show log cfg v = Some (u, t) -> forallb display_event t = true.
Proof.
  unfold show. destruct (READ_VOLTAGE_OR_DEG cfg); apply write_4digit_display.
Qed.

Lemma wait_release_spin (reads : list Z) : forall button u t,
  wait_release button reads = Some (u, t) -> forallb spin_event t = true.
Proof.
  induction reads as [|r reads IH]; intros button u t H.
  - cbn [wait_release] in H. destruct (button =? 0); [discriminate|].
    injection H as <- <-. reflexivity.
  - cbn [wait_release] in H. destruct (button =? 0).
    + apply bind_some in H. destruct H as [a [t1 [t2 [H1 [H2 ->]]]]].
      unfold emit in H1. injection H1 as <- <-.
      cbn [app forallb spin_event]. apply (IH _ _ _ H2).
    + injection H as <- <-. reflexivity.
Qed.

Lemma button_sense_spin (reads : list Z) (ctr c : Z) (t : trace) :
  button_sense reads ctr = Some (c, t) -> forallb spin_event t = true.
Proof.
  destruct reads as [|r reads]; [discriminate|].
  cbn [button_sense]. cbv zeta. intros H. apply bind_some in H.
  destruct H as [a [t1 [t2 [H1 [H2 ->]]]]].
  injection H2 as <- <-. rewrite app_nil_r. apply (wait_release_spin _ _ _ _ H1).
Qed.

Lemma display_quiet (t : trace) :
  forallb display_event t = true ->
  existsb buzzer_on t = false /\ existsb adc_started t = false.
Proof.
  induction t as [|e t IH]; [split; reflexivity|].
  cbn [forallb existsb]. intros H. apply andb_prop in H. destruct H as [He Ht].
  destruct (IH Ht) as [-> ->]. destruct e; try discriminate; split; reflexivity.
Qed.

Lemma spin_quiet (t : trace) :
  forallb spin_event t = true ->
  existsb buzzer_on t = false /\ existsb adc_started t = false.
Proof.
  induction t as [|e t IH]; [split; reflexivity|].
  cbn [forallb existsb]. intros H. apply andb_prop in H. destruct H as [He Ht].
  destruct (IH Ht) as [-> ->]. destruct e; try discriminate; split; reflexivity.
Qed.

Lemma buzz_sounds : existsb buzzer_on buzz = true.
Proof. reflexivity. Qed.

(** ** Millivolts *)

Lemma millivolts_exact_all :
  forallb millivolts_exact (map Z.of_nat (seq 0 1024)) = true.
Proof. vm_compute. reflexivity. Qed.

(** For every 10-bit sample the conversion to [int] is defined and gives the
    product by 2.96, truncated. *)
Lemma voltage_of_adc (sample : Z) :
  adc_sample sample -> double_to_int (voltage_of sample) = Some (sample * 296 / 100).
Proof.
  intros H. pose proof millivolts_exact_all as A.
  rewrite forallb_forall in A.
  specialize (A sample). unfold millivolts_exact in A.
  destruct (double_to_int (voltage_of sample)) as [n|].
  - f_equal. apply Z.eqb_eq, A.
    rewrite <- (Z2Nat.id sample) by (unfold adc_sample in H; lia).
    apply in_map, in_seq. unfold adc_sample in H. lia.
  - discriminate A.
    rewrite <- (Z2Nat.id sample) by (unfold adc_sample in H; lia).
    apply in_map, in_seq. unfold adc_sample in H. lia.
Qed.

(** In a millivolt build every 10-bit sample is shown. *)
Lemma show_millivolts (log : double -> double) (cfg : config) (sample : Z) :
  READ_VOLTAGE_OR_DEG cfg = true -> adc_sample sample ->
  exists t, show log cfg (voltage_of sample) = Some (tt, t).
Proof.
  intros Hc Hs. unfold show. rewrite Hc, (voltage_of_adc _ Hs).
  unfold lift, bind.
  destruct (write_4digit_nonneg (sample * 296 / 100) WAIT_TIME) as [t ->].
  - unfold adc_sample in Hs. Z.div_mod_to_equations. lia.
  - exists ([] ++ t). reflexivity.
Qed.

(** ** The loop body, mode by mode *)

Lemma bind_Some_l {A B : Type} (a : A) (t : trace) (k : A -> M B) :
  bind (Some (a, t)) k
  = match k a with
    | None => None
    | Some (b, t2) => Some (b, t ++ t2)
    end.
Proof. reflexivity. Qed.

(** The threshold control always completes: the counter is reset, or
    incremented as an [unsigned int]; the buzzer runs on the first branch
    only. *)
Lemma threshold_control_eq (cfg : config) (reading reading_pot ctr : Z) :
  threshold_control cfg reading reading_pot ctr
  = Some (if reading_pot <? reading then to_uint (ctr + 1) else 0,
          if TEMP_THRESHOLD_TOGGLE cfg && (reading_pot <? reading)
             && (ctr <? to_uint (BUZZER_LIMIT cfg))
          then buzz else []).
Proof.
  unfold threshold_control.
  destruct (TEMP_THRESHOLD_TOGGLE cfg), (reading_pot <? reading),
    (ctr <? to_uint (BUZZER_LIMIT cfg)); cbn [andb];
    unfold emit, ret; rewrite ?bind_Some_l, ?app_nil_r; reflexivity.
Qed.

Lemma loop_body_off (log : double -> double) (cfg : config) (inp : input)
      (st : state) (c : Z) (ts : trace) :
  button_sense (P2IN_reads inp) (button_ctr st) = Some (c, ts) ->
  c mod 3 = 2 ->
  loop_body log cfg inp st
  = (emit ts ;;
     inject_7seg EMPTY_X EMPTY_X EMPTY_X EMPTY_X WAIT_TIME ;;
     ret {| button_ctr := c; buzz_ctr := buzz_ctr st |}).
Proof.
  intros Hs Hc. unfold loop_body. rewrite Hs, bind_Some_l, Hc.
  change (2 =? 2) with true. cbv iota. reflexivity.
Qed.

Lemma loop_body_pot (log : double -> double) (cfg : config) (inp : input)
      (st : state) (c : Z) (ts : trace) :
  button_sense (P2IN_reads inp) (button_ctr st) = Some (c, ts) ->
  c mod 3 = 1 ->
  loop_body log cfg inp st
  = (emit (ts ++ sampling) ;;
     show log cfg (voltage_of (nth 0 (p1_samples inp) 0)) ;;
     ret {| button_ctr := c; buzz_ctr := buzz_ctr st |}).
Proof.
  intros Hs Hc. unfold loop_body. rewrite Hs, bind_Some_l, Hc.
  change (1 =? 2) with false. change (1 =? 1) with true. cbv iota.
  fold (voltage_of (nth 0 (p1_samples inp) 0)).
  unfold emit. rewrite !bind_Some_l.
  destruct (show log cfg (voltage_of (nth 0 (p1_samples inp) 0)) ;; _)
    as [[st' t]|]; [|reflexivity].
  unfold sampling. rewrite <- !app_assoc. reflexivity.
Qed.

Lemma loop_body_normal (log : double -> double) (cfg : config) (inp : input)
      (st : state) (c : Z) (ts : trace) :
  button_sense (P2IN_reads inp) (button_ctr st) = Some (c, ts) ->
  c mod 3 = 0 ->
  let reading := to_int (nth 2 (p1_samples inp) 0) in
  let reading_pot := to_int (nth 0 (p1_samples inp) 0) in
  loop_body log cfg inp st
  = (emit (ts ++ sampling
           ++ (if TEMP_THRESHOLD_TOGGLE cfg && (reading_pot <? reading)
                  && (buzz_ctr st <? to_uint (BUZZER_LIMIT cfg))
               then buzz else [])) ;;
     show log cfg (voltage_of (nth 2 (p1_samples inp) 0)) ;;
     ret {| button_ctr := c;
            buzz_ctr := if reading_pot <? reading
                        then to_uint (buzz_ctr st + 1) else 0 |}).
Proof.
  intros Hs Hc. cbv zeta. unfold loop_body.
  rewrite Hs, bind_Some_l, Hc.
  change (0 =? 2) with false. change (0 =? 1) with false. cbv iota zeta.
  fold (voltage_of (nth 2 (p1_samples inp) 0)).
  rewrite threshold_control_eq.
  unfold emit. rewrite !bind_Some_l.
  destruct (show log cfg (voltage_of (nth 2 (p1_samples inp) 0)) ;; _)
    as [[st' t]|]; [|reflexivity].
  unfold sampling. rewrite <- !app_assoc. reflexivity.
Qed.

(** What a completed iteration of the form [emit t0 ;; show .. ;; ret st1]
    has done. *)
Lemma emit_show_ret (log : double -> double) (cfg : config) (v : double)
      (t0 : trace) (st1 st' : state) (tr : trace) :
  (emit t0 ;; show log cfg v ;; ret st1) = Some (st', tr) ->
  st' = st1 /\ exists shown, show log cfg v = Some (tt, shown) /\ tr = t0 ++ shown.
Proof.
  intros H. apply bind_some in H. destruct H as [u [t1 [t2 [H1 [H2 ->]]]]].
  injection H1 as _ <-.
  apply bind_some in H2. destruct H2 as [[] [t3 [t4 [H3 [H4 ->]]]]].
  injection H4 as <- <-. split; [reflexivity|].
  exists t3. rewrite app_nil_r. auto.
Qed.

(** ** The control loop *)

(** C3.  When the press counter is 2 modulo 3 after the button sense, the
    iteration reads the all-clear entry of the table for the four digits,
    writes the pattern 0 to the four positions for the 80 passes of
    [inject_7seg] and ends; it starts no conversion, does not drive the
    buzzer, leaves the buzz counter alone and does not depend on the
    samples. *)
Theorem off_mode_blank (log : double -> double) (cfg : config) (inp : input)
        (st : state) (c : Z) (ts : trace) :
  button_sense (P2IN_reads inp) (button_ctr st) = Some (c, ts) ->
  c mod 3 = 2 ->
  index_at EMPTY_X = Some 0
  /\ loop_body log cfg inp st
     = Some ({| button_ctr := c; buzz_ctr := buzz_ctr st |},
             ts ++ concat (repeat (display_pass 0 0 0 0) 80))
  /\ display_pass 0 0 0 0
     = write_7seg 0 4 ++ [delay_cycles 10000]
       ++ write_7seg 0 3 ++ [delay_cycles 10000]
       ++ write_7seg 0 2 ++ [delay_cycles 10000]
       ++ write_7seg 0 1 ++ [delay_cycles 10000]
  /\ existsb adc_started (ts ++ concat (repeat (display_pass 0 0 0 0) 80)) = false
  /\ existsb buzzer_on (ts ++ concat (repeat (display_pass 0 0 0 0) 80)) = false
  /\ (forall inp', P2IN_reads inp' = P2IN_reads inp ->
      loop_body log cfg inp' st = loop_body log cfg inp st).
Proof.
  intros Hs Hc.
  assert (E : loop_body log cfg inp st
              = Some ({| button_ctr := c; buzz_ctr := buzz_ctr st |},
                      ts ++ concat (repeat (display_pass 0 0 0 0) 80))).
  { rewrite (loop_body_off _ _ _ _ _ _ Hs Hc).
    rewrite (inject_7seg_some EMPTY_X EMPTY_X EMPTY_X EMPTY_X 0 0 0 0)
      by reflexivity.
    unfold emit, ret. rewrite !bind_Some_l, app_nil_r. reflexivity. }
  assert (Q : forallb display_event (concat (repeat (display_pass 0 0 0 0) 80)) = true).
  { apply (inject_7seg_display EMPTY_X EMPTY_X EMPTY_X EMPTY_X WAIT_TIME tt).
    apply inject_7seg_some; reflexivity. }
  destruct (display_quiet _ Q) as [Qb Qa].
  destruct (spin_quiet _ (button_sense_spin _ _ _ _ Hs)) as [Sb Sa].
  split; [reflexivity|]. split; [exact E|]. split; [reflexivity|].
  split; [rewrite existsb_app, Sa, Qa; reflexivity|].
  split; [rewrite existsb_app, Sb, Qb; reflexivity|].
  intros inp' Hr. rewrite E.
  rewrite <- Hr in Hs. rewrite (loop_body_off _ _ _ _ _ _ Hs Hc).
  rewrite (inject_7seg_some EMPTY_X EMPTY_X EMPTY_X EMPTY_X 0 0 0 0)
    by reflexivity.
  unfold emit, ret. rewrite !bind_Some_l, app_nil_r. reflexivity.
Qed.

(** C7.  When the press counter is 1 modulo 3, the iteration samples, shows
    the value computed from the potentiometer sample and ends: whatever the
    samples, a completed iteration has left the buzz counter unchanged and
    has not driven the buzzer.  In a millivolt build the iteration completes
    for every 10-bit sample. *)
Theorem pot_mode_no_threshold (log : double -> double) (cfg : config)
        (inp : input) (st : state) (c : Z) (ts : trace) :
  button_sense (P2IN_reads inp) (button_ctr st) = Some (c, ts) ->
  c mod 3 = 1 ->
  loop_body log cfg inp st
  = (emit (ts ++ sampling) ;;
     show log cfg (voltage_of (nth 0 (p1_samples inp) 0)) ;;
     ret {| button_ctr := c; buzz_ctr := buzz_ctr st |})
  /\ (forall st' tr, loop_body log cfg inp st = Some (st', tr) ->
      buzz_ctr st' = buzz_ctr st /\ existsb buzzer_on tr = false)
  /\ (READ_VOLTAGE_OR_DEG cfg = true ->
      adc_sample (nth 0 (p1_samples inp) 0) ->
      exists tr, loop_body log cfg inp st
                 = Some ({| button_ctr := c; buzz_ctr := buzz_ctr st |}, tr)).
Proof.
  intros Hs Hc. pose proof (loop_body_pot log cfg _ _ _ _ Hs Hc) as E.
  destruct (spin_quiet _ (button_sense_spin _ _ _ _ Hs)) as [Sb _].
  split; [exact E|]. split.
  - intros st' tr H. rewrite E in H. apply emit_show_ret in H.
    destruct H as [-> [shown [Hshow ->]]]. split; [reflexivity|].
    destruct (display_quiet _ (show_display _ _ _ _ _ Hshow)) as [Qb _].
    rewrite !existsb_app, Sb, Qb. reflexivity.
  - intros Hv Ha. destruct (show_millivolts log cfg _ Hv Ha) as [shown Hshow].
    exists ((ts ++ sampling) ++ shown ++ []). rewrite E, Hshow. reflexivity.
Qed.

(** C5.  In normal mode (press counter 0 modulo 3, threshold feature on) a
    completed iteration has driven the buzzer exactly when the primary
    reading exceeds the potentiometer reading and the buzz counter was below
    [BUZZER_LIMIT]; when the reading exceeds and the counter has reached the
    limit, the counter is incremented (as an [unsigned int]) and the buzzer
    is not driven.  In a millivolt build the iteration completes for every
    10-bit primary sample. *)
Theorem buzzer_fires_iff (log : double -> double) (cfg : config) (inp : input)
        (st : state) (c : Z) (ts : trace) :
  TEMP_THRESHOLD_TOGGLE cfg = true ->
  0 <= BUZZER_LIMIT cfg < UINT_MODULUS ->
  button_sense (P2IN_reads inp) (button_ctr st) = Some (c, ts) ->
  c mod 3 = 0 ->
  let reading := to_int (nth 2 (p1_samples inp) 0) in
  let reading_pot := to_int (nth 0 (p1_samples inp) 0) in
  let fires := (reading_pot <? reading) && (buzz_ctr st <? BUZZER_LIMIT cfg) in
  loop_body log cfg inp st
  = (emit (ts ++ sampling ++ (if fires then buzz else [])) ;;
     show log cfg (voltage_of (nth 2 (p1_samples inp) 0)) ;;
     ret {| button_ctr := c;
            buzz_ctr := if reading_pot <? reading
                        then to_uint (buzz_ctr st + 1) else 0 |})
  /\ (forall st' tr, loop_body log cfg inp st = Some (st', tr) ->
      existsb buzzer_on tr = fires
      /\ (reading_pot < reading -> BUZZER_LIMIT cfg <= buzz_ctr st ->
          existsb buzzer_on tr = false
          /\ buzz_ctr st' = to_uint (buzz_ctr st + 1)))
  /\ (READ_VOLTAGE_OR_DEG cfg = true ->
      adc_sample (nth 2 (p1_samples inp) 0) ->
      exists st' tr, loop_body log cfg inp st = Some (st', tr)).
Proof.
  intros Ht Hl Hs Hc reading reading_pot fires.
  pose proof (loop_body_normal log cfg _ _ _ _ Hs Hc) as E. cbv zeta in E.
  rewrite Ht, (to_uint_small _ Hl) in E. cbn [andb] in E.
  fold reading in E. fold reading_pot in E. fold fires in E.
  destruct (spin_quiet _ (button_sense_spin _ _ _ _ Hs)) as [Sb _].
  assert (F : forall st' tr, loop_body log cfg inp st = Some (st', tr) ->
              existsb buzzer_on tr = fires
              /\ buzz_ctr st' = if reading_pot <? reading
                                then to_uint (buzz_ctr st + 1) else 0).
  { intros st' tr H. rewrite E in H. apply emit_show_ret in H.
    destruct H as [-> [shown [Hshow ->]]]. split; [|reflexivity].
    destruct (display_quiet _ (show_display _ _ _ _ _ Hshow)) as [Qb _].
    rewrite !existsb_app, Sb, Qb.
    destruct fires; [rewrite buzz_sounds|]; reflexivity. }
  split; [exact E|]. split.
  - intros st' tr H. destruct (F _ _ H) as [Fb Fc]. split; [exact Fb|].
    intros Hx Hlim. rewrite Fb, Fc. unfold fires.
    replace (reading_pot <? reading) with true by (symmetry; apply Z.ltb_lt; lia).
    replace (buzz_ctr st <? BUZZER_LIMIT cfg) with false
      by (symmetry; apply Z.ltb_ge; lia).
    split; reflexivity.
  - intros Hv Ha. destruct (show_millivolts log cfg _ Hv Ha) as [shown Hshow].
    rewrite E, Hshow. do 2 eexists. reflexivity.
Qed.

(** A millivolt build behaves the same whatever [log] is. *)
Lemma loop_body_log_irrelevant (log log' : double -> double) (cfg : config)
      (inp : input) (st : state) :
  READ_VOLTAGE_OR_DEG cfg = true ->
  loop_body log cfg inp st = loop_body log' cfg inp st.
Proof. intros H. unfold loop_body, show. rewrite H. reflexivity. Qed.

(** C1, as the code has it.  The buzz counter starts at 0.  After a completed
    normal-mode iteration it is 0 if the primary reading does not exceed the
    potentiometer reading, and the previous counter plus one (as an
    [unsigned int]) if it does, below the limit or not.  With [BUZZER_LIMIT]
    2 and four consecutive exceeding iterations the counter runs 1, 2, 3, 4. *)
Theorem buzz_ctr_step (log : double -> double) :
  buzz_ctr initial_state = 0
  /\ (forall cfg inp st c ts st' tr,
        button_sense (P2IN_reads inp) (button_ctr st) = Some (c, ts) ->
        c mod 3 = 0 ->
        loop_body log cfg inp st = Some (st', tr) ->
        buzz_ctr st'
        = if to_int (nth 0 (p1_samples inp) 0) <? to_int (nth 2 (p1_samples inp) 0)
          then to_uint (buzz_ctr st + 1) else 0)
  /\ option_map (fun r => map buzz_ctr (fst r))
                (main_loop log limit2_config (repeat exceeding_input 4) initial_state)
     = Some [1; 2; 3; 4].
Proof.
  split; [reflexivity|]. split.
  - intros cfg inp st c ts st' tr Hs Hc H.
    pose proof (loop_body_normal log cfg _ _ _ _ Hs Hc) as E. cbv zeta in E.
    rewrite E in H. apply emit_show_ret in H. destruct H as [-> _]. reflexivity.
  - vm_compute. reflexivity.
Qed.

(** C1 fails as stated: with [BUZZER_LIMIT] 2 and the primary sample above
    the potentiometer sample on four consecutive iterations, the counter runs
    1, 2, 3, 4; on the third iteration it is 3, not [min (2 + 1) 2], and it
    exceeds the limit.  With the limit of the source, 5, six such iterations
    take it to 6. *)
Lemma buzz_ctr_passes_limit :
  option_map (fun r => map buzz_ctr (fst r))
             (main_loop log_unused limit2_config (repeat exceeding_input 4)
                        initial_state)
  = Some [1; 2; 3; 4]
  /\ Z.min (2 + 1) (BUZZER_LIMIT limit2_config) = 2
  /\ BUZZER_LIMIT limit2_config < 3
  /\ option_map (fun r => map buzz_ctr (fst r))
                (main_loop log_unused source_config (repeat exceeding_input 6)
                           initial_state)
     = Some [1; 2; 3; 4; 5; 6]
  /\ BUZZER_LIMIT source_config < 6.
Proof.
  split; [vm_compute; reflexivity|]. split; [reflexivity|].
  split; [cbn; lia|]. split; [vm_compute; reflexivity|]. cbn. lia.
Qed.

(** ** Instances *)

Lemma buzz_ctr_step_witness :
  match loop_body log_unused limit2_config exceeding_input
                  {| button_ctr := 0; buzz_ctr := 2 |} with
  | Some (st', _) => buzz_ctr st' = 3
  | None => False
  end.
Proof.
  destruct (loop_body log_unused limit2_config exceeding_input
                      {| button_ctr := 0; buzz_ctr := 2 |})
    as [[st' tr]|] eqn:E.
  - rewrite (proj1 (proj2 (buzz_ctr_step log_unused))
               limit2_config exceeding_input
               {| button_ctr := 0; buzz_ctr := 2 |} 0 [] st' tr
               eq_refl eq_refl E).
    reflexivity.
  - vm_compute in E. discriminate E.
Defined.

Lemma off_mode_blank_witness :
  5 mod 3 = 2
  /\ loop_body log_unused source_config exceeding_input
               {| button_ctr := 5; buzz_ctr := 0 |}
     = Some ({| button_ctr := 5; buzz_ctr := 0 |},
             concat (repeat (display_pass 0 0 0 0) 80)).
Proof.
  split; [reflexivity|].
  refine (proj1 (proj2 (off_mode_blank log_unused source_config exceeding_input
                          {| button_ctr := 5; buzz_ctr := 0 |} 5 [] _ _)));
    reflexivity.
Defined.

Lemma write_7seg_protocol_witness :
  bus 0 (write_7seg 0x60 3)
  = map Shift [ false; false; false; false
              ; false; false; true; false
              ; false; false; false; false; false; true; true; false ]
    ++ [Latch].
Proof.
  refine (proj1 (write_7seg_protocol 0x60 3 0 _)). lia.
Defined.

Lemma write_7seg_no_select_witness :
  bus 0 (write_7seg 0x60 5)
  = map Shift [ false; false; false; false
              ; false; false; false; false
              ; false; false; false; false; false; true; true; false ]
    ++ [Latch].
Proof.
  refine (proj1 (write_7seg_no_select 0x60 5 0 _ _)).
  - unfold INT_MIN, INT_MAX. lia.
  - right. lia.
Defined.

Lemma buzzer_fires_iff_witness :
  loop_body log_unused limit2_config exceeding_input
            {| button_ctr := 0; buzz_ctr := 1 |}
  = (emit (sampling ++ buzz) ;;
     show log_unused limit2_config (voltage_of 600) ;;
     ret {| button_ctr := 0; buzz_ctr := 2 |}).
Proof.
  refine (proj1 (buzzer_fires_iff log_unused limit2_config exceeding_input
                   {| button_ctr := 0; buzz_ctr := 1 |} 0 [] _ _ _ _)).
  - reflexivity.
  - unfold UINT_MODULUS. cbn. lia.
  - reflexivity.
  - reflexivity.
Defined.

Lemma pot_mode_no_threshold_witness :
  exists tr,
    loop_body log_unused source_config exceeding_input
              {| button_ctr := 1; buzz_ctr := 3 |}
    = Some ({| button_ctr := 1; buzz_ctr := 3 |}, tr).
Proof.
  refine (proj2 (proj2 (pot_mode_no_threshold log_unused source_config
                          exceeding_input
                          {| button_ctr := 1; buzz_ctr := 3 |} 1 [] _ _)) _ _).
  - reflexivity.
  - reflexivity.
  - reflexivity.
  - unfold adc_sample. cbn. lia.
Defined.

Lemma render_table_bounds_witness :
  write_4digit 1234 WAIT_TIME <> None /\ write_4digit (-1234) WAIT_TIME = None.
Proof.
  split.
  - destruct (render_table_bounds 1234 WAIT_TIME)
      as [d_1 [d_2 [d_3 [d_4 [_ [P _]]]]]].
    apply P. lia.
  - destruct (render_table_bounds (-1234) WAIT_TIME)
      as [d_1 [d_2 [d_3 [d_4 [_ [_ [Q _]]]]]]].
    apply Q; [lia | vm_compute; discriminate].
Defined.

(** * Further properties *)

(** ** Button sense *)

Lemma wait_release_hold (rel : Z) (rest held : list Z) : forall button,
  (button =? 0) = true -> forallb pressed held = true -> pressed rel = false ->
  wait_release button (held ++ rel :: rest)
  = Some (tt, repeat (busy_loop WAIT_TIME) (S (length held))).
Proof.
  induction held as [|h held IH]; intros button Hb Hh Hr.
  - cbn [app wait_release]. rewrite Hb. unfold emit. rewrite bind_Some_l.
    unfold pressed in Hr. destruct rest; cbn [wait_release]; rewrite Hr; reflexivity.
  - cbn [forallb] in Hh. apply andb_prop in Hh. destruct Hh as [Hp Hh].
    cbn [app wait_release]. rewrite Hb. unfold emit. rewrite bind_Some_l.
    rewrite (IH _ Hp Hh Hr). reflexivity.
Qed.


Lemma button_sense_released (r : Z) (rest : list Z) (ctr : Z) :
  pressed r = false -> button_sense (r :: rest) ctr = Some (ctr, []).
Proof.
  intros Hr. unfold pressed in Hr. cbn [button_sense]. cbv zeta. rewrite Hr.
  destruct rest; cbn [wait_release]; rewrite Hr; reflexivity.
Qed.

Lemma button_sense_value (r : Z) (reads : list Z) (ctr c : Z) (ts : trace) :
  button_sense (r :: reads) ctr = Some (c, ts) ->
  c = if pressed r then to_uint (ctr + 1) else ctr.
Proof.
  cbn [button_sense]. cbv zeta. intros H. apply bind_some in H.
  destruct H as [u [t1 [t2 [_ [H2 _]]]]]. injection H2 as <- _. reflexivity.
Qed.

(** X1.  A press is counted once, however long the button is held: when the
    first read finds the button pressed, the following reads too, and then
    one read finds it released, the counter has gone up by one (as an
    [unsigned int]) and the loop has spun once per read after the first. *)
Theorem press_counted_once (r0 rel : Z) (held rest : list Z) (ctr : Z) :
  pressed r0 = true -> forallb pressed held = true -> pressed rel = false ->
  button_sense (r0 :: held ++ rel :: rest) ctr
  = Some (to_uint (ctr + 1), repeat (busy_loop WAIT_TIME) (S (length held))).
Proof.
  intros H0 Hh Hr. cbn [button_sense]. cbv zeta.
  unfold pressed in H0. rewrite H0.
  rewrite (wait_release_hold rel rest held _ H0 Hh Hr), bind_Some_l.
  unfold ret. rewrite app_nil_r. reflexivity.
Qed.


(** X3.  A press moves the mode one step round the cycle 0, 1, 2, except at
    the wrap of the 16-bit counter: from 65535 the counter goes to 0 and the
    mode stays 0. *)
Theorem press_advances_mode (r : Z) (reads : list Z) (ctr c : Z) (ts : trace) :
  0 <= ctr < UINT_MODULUS ->
  pressed r = true ->
  button_sense (r :: reads) ctr = Some (c, ts) ->
  c mod 3 = (if ctr =? 65535 then ctr mod 3 else (ctr mod 3 + 1) mod 3).
Proof.
  intros Hc Hp H. apply button_sense_value in H. rewrite Hp in H. subst c.
  unfold to_uint, UINT_MODULUS in *.
  destruct (Z.eqb_spec ctr 65535) as [->|Hn]; [reflexivity|].
  rewrite (Z.mod_small (ctr + 1)) by lia.
  rewrite Zplus_mod_idemp_l. reflexivity.
Qed.

(** ** The display driver *)

Lemma last_P2OUT_app (t1 t2 : trace) : forall prev,
  last_P2OUT prev (t1 ++ t2) = last_P2OUT (last_P2OUT prev t1) t2.
Proof.
  induction t1 as [|e t1 IH]; intros prev; [reflexivity|].
  destruct e; simpl; apply IH.
Qed.

Lemma P2OUT_writes_app (t1 t2 : trace) :
  P2OUT_writes (t1 ++ t2) = P2OUT_writes t1 ++ P2OUT_writes t2.
Proof.
  induction t1 as [|e t1 IH]; [reflexivity|].
  destruct e; cbn [app P2OUT_writes]; rewrite IH; reflexivity.
Qed.

Lemma delay_total_app (t1 t2 : trace) :
  delay_total (t1 ++ t2) = delay_total t1 + delay_total t2.
Proof.
  induction t1 as [|e t1 IH]; [reflexivity|].
  destruct e; cbn [app delay_total]; rewrite IH; lia.
Qed.

(** The footprint of the second loop: three writes and three cycles a pass,
    on the data and shift-clock pins. *)
Lemma fill_upper_footprint (n : nat) : forall idx,
  length (P2OUT_writes (fill_upper n idx)) = (3 * n)%nat
  /\ delay_total (fill_upper n idx) = 3 * Z.of_nat n
  /\ forallb output_pins_only (P2OUT_writes (fill_upper n idx)) = true.
Proof.
  induction n as [|n IH]; intros idx; [repeat split|].
  destruct (IH (to_int (idx - 1))) as [L [D F]].
  cbn [fill_upper]. rewrite P2OUT_writes_app, delay_total_app, length_app,
    forallb_app, L, D, F.
  destruct (idx =? 1); (split; [cbn; lia | split; [cbn [delay_total app]; lia | reflexivity]]).
Qed.

Lemma shift_message_footprint (n : nat) : forall data,
  length (P2OUT_writes (shift_message n data)) = (3 * n)%nat
  /\ delay_total (shift_message n data) = 3 * Z.of_nat n
  /\ forallb output_pins_only (P2OUT_writes (shift_message n data)) = true.
Proof.
  induction n as [|n IH]; intros data; [repeat split|].
  destruct (IH (Z.shiftr data 1)) as [L [D F]].
  cbn [shift_message]. cbv zeta. rewrite land_1_bit.
  rewrite P2OUT_writes_app, delay_total_app, length_app, forallb_app, L, D, F.
  destruct (Z.testbit data 0);
    (split; [cbn; lia | split; [cbn [delay_total app]; lia | reflexivity]]).
Qed.

(** X4.  The footprint of [write_7seg] does not depend on its arguments: 49
    writes to [P2OUT], each touching only P2.0, P2.3 and P2.4, 49 cycles of
    delay, and the register clock left high at the end. *)
Theorem write_7seg_footprint (data idx prev : Z) :
  length (P2OUT_writes (write_7seg data idx)) = 49%nat
  /\ delay_total (write_7seg data idx) = 49
  /\ forallb output_pins_only (P2OUT_writes (write_7seg data idx)) = true
  /\ last_P2OUT prev (write_7seg data idx) = rck.
Proof.
  unfold write_7seg.
  destruct (fill_upper_footprint 4 idx) as [L1 [D1 F1]].
  destruct (shift_message_footprint 8 data) as [L2 [D2 F2]].
  rewrite !P2OUT_writes_app, !delay_total_app, !length_app, !forallb_app,
    L1, D1, F1, L2, D2, F2, !last_P2OUT_app.
  repeat split.
Qed.

Lemma shift_message_ext (n : nat) : forall d d',
  (forall k, 0 <= k < Z.of_nat n -> Z.testbit d k = Z.testbit d' k) ->
  shift_message n d = shift_message n d'.
Proof.
  induction n as [|n IH]; intros d d' H; [reflexivity|].
  cbn [shift_message]. cbv zeta. rewrite !land_1_bit.
  rewrite (H 0) by lia. rewrite (IH (Z.shiftr d 1) (Z.shiftr d' 1)); [reflexivity|].
  intros k Hk. rewrite !Z.shiftr_spec by lia. apply H. lia.
Qed.

(** X5.  [write_7seg] sends the low eight bits of [data] and nothing else of
    it: two arguments that agree modulo 256 give the same events. *)
Theorem write_7seg_low_byte (data idx : Z) :
  write_7seg data idx = write_7seg (data mod 256) idx.
Proof.
  unfold write_7seg. rewrite (shift_message_ext 8 data (data mod 256)); [reflexivity|].
  intros k Hk. change 256 with (2 ^ 8).
  rewrite Z.mod_pow2_bits_low; [reflexivity|]. cbn in Hk. lia.
Qed.

(** The bus during one call, for a position in 1..4. *)
Lemma bus_write_7seg (data idx prev : Z) :
  1 <= idx <= 4 -> bus prev (write_7seg data idx) = frame data idx.
Proof.
  intros Hi. unfold write_7seg, frame.
  rewrite bus_app. destruct (bus_fill_lower prev) as [-> ->].
  rewrite bus_app.
  destruct (bus_shift_message 8 data (last_P2OUT 0 (fill_upper 4 idx))
              [P2OUT_write rck; delay_cycles 1]) as [last [-> L]].
  assert (C : idx = 1 \/ idx = 2 \/ idx = 3 \/ idx = 4) by lia.
  rewrite bus_latch.
  - rewrite !map_app, <- !app_assoc. f_equal. f_equal.
    destruct C as [->|[->|[->| ->]]]; reflexivity.
  - apply L. destruct C as [->|[->|[->| ->]]]; reflexivity.
Qed.

Lemma bus_display_pass (p_1 p_2 p_3 p_4 prev : Z) :
  bus prev (display_pass p_1 p_2 p_3 p_4)
  = frame (to_int p_1) 4 ++ frame (to_int p_2) 3
    ++ frame (to_int p_3) 2 ++ frame (to_int p_4) 1.
Proof.
  unfold display_pass.
  repeat (rewrite bus_app, bus_write_7seg by lia; cbn [bus app]).
  rewrite app_nil_r. reflexivity.
Qed.

Lemma bus_repeat_pass (p_1 p_2 p_3 p_4 : Z) (n : nat) : forall prev,
  bus prev (concat (repeat (display_pass p_1 p_2 p_3 p_4) n))
  = concat (repeat (frame (to_int p_1) 4 ++ frame (to_int p_2) 3
                    ++ frame (to_int p_3) 2 ++ frame (to_int p_4) 1) n).
Proof.
  induction n as [|n IH]; intros prev; [reflexivity|].
  cbn [repeat concat]. rewrite bus_app, bus_display_pass, IH. reflexivity.
Qed.

Lemma pattern_of_digit (d : Z) :
  0 <= d <= 9 -> index_at d = Some (pattern_of d) /\ to_int (pattern_of d) = pattern_of d.
Proof.
  intros H. destruct (index_at_digit d H) as [p [E B]].
  assert (P : pattern_of d = p) by (apply nth_error_nth; exact E).
  rewrite P. split; [exact E|]. apply to_int_small. unfold INT_MIN, INT_MAX. lia.
Qed.

(** X6.  Showing a non-negative number puts on the bus, 80 times over, four
    latched words: the pattern of the thousands digit for position 4, then
    hundreds for 3, tens for 2 and units for 1. *)
Theorem write_4digit_bus (N delay prev : Z) :
  0 <= N ->
  exists t,
    write_4digit N delay = Some (tt, t)
    /\ bus prev t
       = concat (repeat (frame (pattern_of ((N / 1000) mod 10)) 4
                         ++ frame (pattern_of ((N / 100) mod 10)) 3
                         ++ frame (pattern_of ((N / 10) mod 10)) 2
                         ++ frame (pattern_of (N mod 10)) 1) 80).
Proof.
  intros H.
  assert (B : forall a, 0 <= a mod 10 <= 9)
    by (intros a; pose proof (Z.mod_pos_bound a 10); lia).
  destruct (pattern_of_digit _ (B (N / 1000))) as [E1 T1].
  destruct (pattern_of_digit _ (B (N / 100))) as [E2 T2].
  destruct (pattern_of_digit _ (B (N / 10))) as [E3 T3].
  destruct (pattern_of_digit _ (B N)) as [E4 T4].
  eexists. split.
  - rewrite write_4digit_digits4, (digits4_nonneg N H).
    apply (inject_7seg_some _ _ _ _ _ _ _ _ E1 E2 E3 E4).
  - rewrite bus_repeat_pass, T1, T2, T3, T4. reflexivity.
Qed.

(** What [write_4digit] does for a non-negative number: the 80 passes over
    the patterns of its four low decimal digits. *)
Lemma write_4digit_trace (N delay : Z) :
  0 <= N ->
  write_4digit N delay
  = Some (tt, concat (repeat (display_pass (pattern_of ((N / 1000) mod 10))
                                           (pattern_of ((N / 100) mod 10))
                                           (pattern_of ((N / 10) mod 10))
                                           (pattern_of (N mod 10))) 80)).
Proof.
  intros H.
  assert (B : forall a, 0 <= a mod 10 <= 9)
    by (intros a; pose proof (Z.mod_pos_bound a 10); lia).
  destruct (pattern_of_digit _ (B (N / 1000))) as [E1 _].
  destruct (pattern_of_digit _ (B (N / 100))) as [E2 _].
  destruct (pattern_of_digit _ (B (N / 10))) as [E3 _].
  destruct (pattern_of_digit _ (B N)) as [E4 _].
  rewrite write_4digit_digits4, (digits4_nonneg N H).
  apply (inject_7seg_some _ _ _ _ _ _ _ _ E1 E2 E3 E4).
Qed.

(** X7.  For a non-negative number [write_4digit] hands [inject_7seg] four
    decimal digits that read back as the number modulo 10000, and what it
    writes is the 80 passes over the table patterns of those digits, the
    thousands digit first. *)
Theorem digits_recombine (N delay : Z) :
  0 <= N ->
  exists d_1 d_2 d_3 d_4,
    (0 <= d_1 <= 9 /\ 0 <= d_2 <= 9 /\ 0 <= d_3 <= 9 /\ 0 <= d_4 <= 9)
    /\ 1000 * d_1 + 100 * d_2 + 10 * d_3 + d_4 = N mod 10000
    /\ write_4digit N delay = inject_7seg d_1 d_2 d_3 d_4 WAIT_TIME
    /\ write_4digit N delay
       = Some (tt, concat (repeat (display_pass (pattern_of d_1) (pattern_of d_2)
                                                (pattern_of d_3) (pattern_of d_4))
                                  80)).
Proof.
  intros H.
  exists ((N / 1000) mod 10), ((N / 100) mod 10), ((N / 10) mod 10), (N mod 10).
  split; [|split; [|split]].
  - repeat split; Z.div_mod_to_equations; lia.
  - Z.div_mod_to_equations. lia.
  - rewrite write_4digit_digits4, (digits4_nonneg N H). reflexivity.
  - apply write_4digit_trace, H.
Qed.

Lemma index_NoDup : NoDup index.
Proof.
  unfold index.
  repeat (apply NoDup_cons; [cbn [In]; intros C;
                             repeat (destruct C as [C|C]; [discriminate C|]);
                             exact C|]).
  apply NoDup_nil.
Qed.

Lemma index_bytes :
  Forall (fun p => 0 <= p < 256 /\ Z.testbit p 0 = false) index.
Proof. unfold index. repeat constructor; cbn; lia. Qed.

(** X8.  The table does not confuse two subscripts: two in-range reads that
    return the same pattern are reads of the same entry; every pattern is a
    byte with the decimal-point bit (bit 0) clear. *)
Theorem table_read_injective (a b p : Z) :
  0 <= a -> 0 <= b ->
  index_at a = Some p -> index_at b = Some p ->
  a = b /\ 0 <= p < 256 /\ Z.testbit p 0 = false.
Proof.
  intros Ha Hb Ea Eb. unfold index_at in *. split.
  - apply Z2Nat.inj; [assumption | assumption |].
    pose proof index_NoDup as D. rewrite NoDup_nth_error in D. apply D.
    + apply nth_error_Some. rewrite Ea. discriminate.
    + rewrite Ea, Eb. reflexivity.
  - pose proof index_bytes as F. rewrite Forall_forall in F.
    apply F. apply (nth_error_In _ _ Ea).
Qed.

(** X9.  With a dwell argument of 0, 1 or 2 the loop of [inject_7seg] does
    not run: nothing is written and the table is not read, so even digits
    outside the table are harmless. *)
Theorem inject_7seg_short_delay (d_1 d_2 d_3 d_4 delay : Z) :
  0 <= delay <= 2 ->
  inject_7seg d_1 d_2 d_3 d_4 delay = Some (tt, []).
Proof.
  intros H. unfold inject_7seg.
  assert (E : double_to_int (dmul (int_to_double delay) (dlit 4 10)) = Some 0).
  { assert (C : delay = 0 \/ delay = 1 \/ delay = 2) by lia.
    destruct C as [->|[->| ->]]; vm_compute; reflexivity. }
  rewrite E. reflexivity.
Qed.

(** ** The loop body *)

Lemma Some_pair_inv {A B : Type} (a a' : A) (b b' : B) :
  Some (a, b) = Some (a', b') -> a = a' /\ b = b'.
Proof. intros H. injection H as -> ->. split; reflexivity. Qed.

(** What a completed iteration has done, by mode. *)
Lemma loop_body_cases (log : double -> double) (cfg : config) (inp : input)
      (st st' : state) (tr : trace) :
  loop_body log cfg inp st = Some (st', tr) ->
  exists c ts,
    button_sense (P2IN_reads inp) (button_ctr st) = Some (c, ts)
    /\ button_ctr st' = c
    /\ ((c mod 3 = 2 /\ buzz_ctr st' = buzz_ctr st
         /\ tr = ts ++ concat (repeat (display_pass 0 0 0 0) 80))
        \/ (c mod 3 = 1 /\ buzz_ctr st' = buzz_ctr st
            /\ exists shown, forallb display_event shown = true
                             /\ tr = ts ++ sampling ++ shown)
        \/ (c mod 3 = 0
            /\ buzz_ctr st'
               = (if to_int (nth 0 (p1_samples inp) 0)
                     <? to_int (nth 2 (p1_samples inp) 0)
                  then to_uint (buzz_ctr st + 1) else 0)
            /\ exists shown,
                forallb display_event shown = true
                /\ tr = ts ++ sampling
                        ++ (if TEMP_THRESHOLD_TOGGLE cfg
                               && (to_int (nth 0 (p1_samples inp) 0)
                                   <? to_int (nth 2 (p1_samples inp) 0))
                               && (buzz_ctr st <? to_uint (BUZZER_LIMIT cfg))
                            then buzz else [])
                        ++ shown)).
Proof.
  intros H.
  destruct (button_sense (P2IN_reads inp) (button_ctr st)) as [[c ts]|] eqn:Hs;
    [|unfold loop_body in H; rewrite Hs in H; discriminate H].
  exists c, ts. split; [reflexivity|].
  assert (C : c mod 3 = 2 \/ c mod 3 = 1 \/ c mod 3 = 0)
    by (pose proof (Z.mod_pos_bound c 3); lia).
  destruct C as [Hc|[Hc|Hc]].
  - rewrite (loop_body_off _ _ _ _ _ _ Hs Hc) in H.
    rewrite (inject_7seg_some EMPTY_X EMPTY_X EMPTY_X EMPTY_X 0 0 0 0) in H
      by reflexivity.
    unfold emit, ret in H. rewrite !bind_Some_l, app_nil_r in H.
    apply Some_pair_inv in H. destruct H as [<- <-].
    split; [reflexivity|]. left. split; [exact Hc|]. split; reflexivity.
  - rewrite (loop_body_pot _ _ _ _ _ _ Hs Hc) in H. apply emit_show_ret in H.
    destruct H as [-> [shown [Hshow ->]]]. split; [reflexivity|].
    right. left. split; [exact Hc|]. split; [reflexivity|].
    exists shown. split; [apply (show_display _ _ _ _ _ Hshow)|].
    rewrite <- app_assoc. reflexivity.
  - pose proof (loop_body_normal log cfg _ _ _ _ Hs Hc) as E. cbv zeta in E.
    rewrite E in H. apply emit_show_ret in H.
    destruct H as [-> [shown [Hshow ->]]]. split; [reflexivity|].
    right. right. split; [exact Hc|]. split; [reflexivity|].
    exists shown. split; [apply (show_display _ _ _ _ _ Hshow)|].
    rewrite <- !app_assoc. reflexivity.
Qed.

Lemma count_app (f : event -> bool) (t1 t2 : trace) :
  count f (t1 ++ t2) = (count f t1 + count f t2)%nat.
Proof. unfold count. rewrite filter_app, length_app. reflexivity. Qed.

Lemma count_none (f : event -> bool) (t : trace) :
  existsb f t = false -> count f t = 0%nat.
Proof.
  unfold count. induction t as [|e t IH]; [reflexivity|].
  cbn [existsb filter]. intros H. apply orb_false_elim in H.
  destruct H as [-> Ht]. apply IH, Ht.
Qed.

Lemma count_display (t : trace) :
  forallb display_event t = true ->
  count buzzer_on t = 0%nat /\ count adc_started t = 0%nat.
Proof.
  intros H. destruct (display_quiet _ H) as [B A].
  split; apply count_none; assumption.
Qed.

Lemma count_spin (t : trace) :
  forallb spin_event t = true ->
  count buzzer_on t = 0%nat /\ count adc_started t = 0%nat.
Proof.
  intros H. destruct (spin_quiet _ H) as [B A].
  split; apply count_none; assumption.
Qed.

Lemma blank_display :
  forallb display_event (concat (repeat (display_pass 0 0 0 0) 80)) = true.
Proof.
  apply (inject_7seg_display EMPTY_X EMPTY_X EMPTY_X EMPTY_X WAIT_TIME tt).
  apply inject_7seg_some; reflexivity.
Qed.

(** X11.  Each completed iteration starts one analog conversion, except in
    OFF mode (press counter 2 modulo 3), where it starts none. *)
Theorem one_conversion_per_iteration (log : double -> double) (cfg : config)
        (inp : input) (st st' : state) (tr : trace) :
  loop_body log cfg inp st = Some (st', tr) ->
  count adc_started tr = if button_ctr st' mod 3 =? 2 then 0%nat else 1%nat.
Proof.
  intros H. apply loop_body_cases in H.
  destruct H as [c [ts [Hs [-> M]]]].
  destruct (count_spin _ (button_sense_spin _ _ _ _ Hs)) as [_ Sa].
  destruct M as [[Hc [_ ->]]|[[Hc [_ [shown [D ->]]]]|[Hc [_ [shown [D ->]]]]]];
    rewrite Hc; cbn [Z.eqb Pos.eqb].
  - rewrite count_app, Sa.
    apply count_none. apply (display_quiet _ blank_display).
  - destruct (count_display _ D) as [_ Da].
    rewrite !count_app, Sa, Da. reflexivity.
  - destruct (count_display _ D) as [_ Da].
    rewrite !count_app, Sa, Da.
    destruct (_ && _ && _); reflexivity.
Qed.

(** X12.  The two counters stay within [unsigned int] over a completed
    iteration. *)
Theorem counters_stay_in_range (log : double -> double) (cfg : config)
        (inp : input) (st st' : state) (tr : trace) :
  0 <= button_ctr st < UINT_MODULUS ->
  0 <= buzz_ctr st < UINT_MODULUS ->
  loop_body log cfg inp st = Some (st', tr) ->
  0 <= button_ctr st' < UINT_MODULUS /\ 0 <= buzz_ctr st' < UINT_MODULUS.
Proof.
  intros Hb Hz H. apply loop_body_cases in H.
  destruct H as [c [ts [Hs [-> M]]]].
  assert (U : forall z, 0 <= to_uint z < UINT_MODULUS)
    by (intros z; apply Z.mod_pos_bound; reflexivity).
  split.
  - destruct (P2IN_reads inp) as [|r reads]; [discriminate Hs|].
    rewrite (button_sense_value _ _ _ _ _ Hs).
    destruct (pressed r); [apply U | exact Hb].
  - destruct M as [[_ [-> _]]|[[_ [-> _]]|[_ [-> _]]]]; try exact Hz.
    destruct (_ <? _); [apply U | unfold UINT_MODULUS; lia].
Qed.

(** X13.  With the threshold feature compiled out, no run of the loop drives
    the buzzer pin. *)
Theorem threshold_off_never_buzzes (log : double -> double) (cfg : config)
        (inps : list input) : forall (st : state) (sts : list state) (tr : trace),
  TEMP_THRESHOLD_TOGGLE cfg = false ->
  main_loop log cfg inps st = Some (sts, tr) ->
  existsb buzzer_on tr = false.
Proof.
  induction inps as [|inp inps IH]; intros st sts tr Ht H.
  - injection H as _ <-. reflexivity.
  - cbn [main_loop] in H. apply bind_some in H.
    destruct H as [st1 [t1 [t2 [H1 [H2 ->]]]]].
    apply bind_some in H2. destruct H2 as [sts' [t3 [t4 [H3 [H4 ->]]]]].
    injection H4 as _ <-. rewrite app_nil_r, existsb_app, (IH _ _ _ Ht H3).
    apply loop_body_cases in H1. destruct H1 as [c [ts [Hs [_ M]]]].
    destruct (spin_quiet _ (button_sense_spin _ _ _ _ Hs)) as [Sb _].
    rewrite orb_false_r.
    destruct M as [[_ [_ ->]]|[[_ [_ [shown [D ->]]]]|[_ [_ [shown [D ->]]]]]].
    + rewrite existsb_app, Sb.
      apply (display_quiet _ blank_display).
    + destruct (display_quiet _ D) as [Db _].
      rewrite !existsb_app, Sb, Db. reflexivity.
    + destruct (display_quiet _ D) as [Db _].
      rewrite Ht. cbn [andb]. rewrite !existsb_app, Sb, Db. reflexivity.
Qed.

(** ** Runs of exceeding iterations *)

Lemma loop_body_exceeding (log : double -> double) (cfg : config) (inp : input)
      (st : state) :
  READ_VOLTAGE_OR_DEG cfg = true ->
  released_exceeding inp ->
  button_ctr st mod 3 = 0 ->
  exists shown,
    forallb display_event shown = true
    /\ loop_body log cfg inp st
       = Some ({| button_ctr := button_ctr st;
                  buzz_ctr := to_uint (buzz_ctr st + 1) |},
               sampling
               ++ (if TEMP_THRESHOLD_TOGGLE cfg
                      && (buzz_ctr st <? to_uint (BUZZER_LIMIT cfg))
                   then buzz else [])
               ++ shown).
Proof.
  intros Hv [[r [rest [Hr Hp]]] [A0 [A2 Hlt]]] Hc.
  assert (Hs : button_sense (P2IN_reads inp) (button_ctr st)
               = Some (button_ctr st, []))
    by (rewrite Hr; apply button_sense_released, Hp).
  pose proof (loop_body_normal log cfg _ _ _ _ Hs Hc) as E. cbv zeta in E.
  rewrite (to_int_small (nth 0 (p1_samples inp) 0)) in E
    by (unfold adc_sample, INT_MIN, INT_MAX in *; lia).
  rewrite (to_int_small (nth 2 (p1_samples inp) 0)) in E
    by (unfold adc_sample, INT_MIN, INT_MAX in *; lia).
  replace (nth 0 (p1_samples inp) 0 <? nth 2 (p1_samples inp) 0) with true in E
    by (symmetry; apply Z.ltb_lt; exact Hlt).
  rewrite andb_true_r in E.
  destruct (show_millivolts log cfg _ Hv A2) as [shown Hshow].
  exists shown. split; [apply (show_display _ _ _ _ _ Hshow)|].
  rewrite E, Hshow. unfold emit, ret. rewrite !bind_Some_l, app_nil_r.
  reflexivity.
Qed.

Lemma count_buzz : count buzzer_on buzz = 37%nat.
Proof. reflexivity. Qed.

Lemma count_sampling : count buzzer_on sampling = 0%nat.
Proof. reflexivity. Qed.

(** The counter and the buzzes over a run of exceeding iterations that does
    not wrap the counter. *)
Lemma main_loop_exceeding (log : double -> double) (cfg : config)
      (inps : list input) : forall st,
  READ_VOLTAGE_OR_DEG cfg = true ->
  TEMP_THRESHOLD_TOGGLE cfg = true ->
  0 <= BUZZER_LIMIT cfg < UINT_MODULUS ->
  Forall released_exceeding inps ->
  button_ctr st mod 3 = 0 ->
  0 <= buzz_ctr st ->
  buzz_ctr st + Z.of_nat (length inps) < UINT_MODULUS ->
  exists sts tr,
    main_loop log cfg inps st = Some (sts, tr)
    /\ map buzz_ctr sts
       = map (fun i => buzz_ctr st + Z.of_nat i) (seq 1 (length inps))
    /\ Z.of_nat (count buzzer_on tr)
       = 37 * (Z.min (buzz_ctr st + Z.of_nat (length inps)) (BUZZER_LIMIT cfg)
               - Z.min (buzz_ctr st) (BUZZER_LIMIT cfg)).
Proof.
  induction inps as [|inp inps IH]; intros st Hv Ht Hl Hf Hc H0 Hk.
  - exists [], []. split; [reflexivity|]. split; [reflexivity|].
    cbn [length Z.of_nat count filter]. rewrite Z.add_0_r. lia.
  - inversion Hf as [|? ? He Hf']; subst.
    destruct (loop_body_exceeding log cfg inp st Hv He Hc) as [shown [D E]].
    cbn [length] in Hk. rewrite Nat2Z.inj_succ in Hk.
    rewrite Ht, (to_uint_small _ Hl) in E. cbn [andb] in E.
    rewrite (to_uint_small (buzz_ctr st + 1)) in E by (unfold UINT_MODULUS in *; lia).
    set (st1 := {| button_ctr := button_ctr st; buzz_ctr := buzz_ctr st + 1 |}) in *.
    assert (P1 : 0 <= buzz_ctr st1) by (cbn; lia).
    assert (P2 : buzz_ctr st1 + Z.of_nat (length inps) < UINT_MODULUS)
      by (cbn [buzz_ctr st1]; lia).
    destruct (IH st1 Hv Ht Hl Hf' Hc P1 P2) as [sts [tr [M [C B]]]].
    exists (st1 :: sts), ((sampling ++ (if buzz_ctr st <? BUZZER_LIMIT cfg
                                        then buzz else []) ++ shown) ++ tr).
    split; [|split].
    + cbn [main_loop]. rewrite E, bind_Some_l, M, bind_Some_l.
      unfold ret. rewrite app_nil_r. reflexivity.
    + cbn [map length seq]. rewrite C.
      change (buzz_ctr st1) with (buzz_ctr st + Z.of_nat 1) at 1.
      apply (f_equal (cons (buzz_ctr st + Z.of_nat 1))).
      rewrite <- (seq_shift (length inps) 1), map_map. apply map_ext. intros i.
      cbn [buzz_ctr st1]. lia.
    + destruct (count_display _ D) as [Db _].
      rewrite !count_app, Db, count_sampling, Nat2Z.inj_add, B.
      cbn [buzz_ctr st1 length]. rewrite Nat2Z.inj_succ.
      destruct (Z.ltb_spec (buzz_ctr st) (BUZZER_LIMIT cfg)).
      * rewrite count_buzz. cbn [Nat.add]. lia.
      * cbn [count filter length Nat.add]. lia.
Qed.

(** X14.  Starting with the buzz counter at 0, over k consecutive normal-mode
    iterations whose primary sample exceeds the potentiometer sample (k below
    65536) the counter runs 1, 2, ..., k and [buzz] runs on the first
    [BUZZER_LIMIT] of them only: the buzzer pin is raised 37 times for each,
    37 * min k BUZZER_LIMIT times in all. *)
Theorem consecutive_alarms (log : double -> double) (cfg : config)
        (inps : list input) (st : state) :
  READ_VOLTAGE_OR_DEG cfg = true ->
  TEMP_THRESHOLD_TOGGLE cfg = true ->
  0 <= BUZZER_LIMIT cfg < UINT_MODULUS ->
  Forall released_exceeding inps ->
  button_ctr st mod 3 = 0 ->
  buzz_ctr st = 0 ->
  Z.of_nat (length inps) < UINT_MODULUS ->
  exists sts tr,
    main_loop log cfg inps st = Some (sts, tr)
    /\ map buzz_ctr sts = map Z.of_nat (seq 1 (length inps))
    /\ Z.of_nat (count buzzer_on tr)
       = 37 * Z.min (Z.of_nat (length inps)) (BUZZER_LIMIT cfg).
Proof.
  intros Hv Ht Hl Hf Hc H0 Hk.
  assert (P1 : 0 <= buzz_ctr st) by lia.
  assert (P2 : buzz_ctr st + Z.of_nat (length inps) < UINT_MODULUS) by lia.
  destruct (main_loop_exceeding log cfg inps st Hv Ht Hl Hf Hc P1 P2)
    as [sts [tr [M [C B]]]].
  exists sts, tr. split; [exact M|]. rewrite C, B, H0. split.
  - apply map_ext. intros i. lia.
  - lia.
Qed.

Lemma last_cons (sts : list state) : forall a d : state,
  last (a :: sts) d = last sts a.
Proof.
  induction sts as [|s sts IH]; intros a d; [reflexivity|].
  change (last (a :: s :: sts) d) with (last (s :: sts) d).
  rewrite (IH s d), (IH s a). reflexivity.
Qed.

(** The counter over a run of exceeding iterations of any length. *)
Lemma main_loop_exceeding_ctr (log : double -> double) (cfg : config)
      (inps : list input) : forall st,
  READ_VOLTAGE_OR_DEG cfg = true ->
  Forall released_exceeding inps ->
  button_ctr st mod 3 = 0 ->
  exists sts tr,
    main_loop log cfg inps st = Some (sts, tr)
    /\ to_uint (buzz_ctr (last sts st))
       = to_uint (buzz_ctr st + Z.of_nat (length inps)).
Proof.
  induction inps as [|inp inps IH]; intros st Hv Hf Hc.
  - exists [], []. split; [reflexivity|]. cbn [last length Z.of_nat].
    rewrite Z.add_0_r. reflexivity.
  - inversion Hf as [|? ? He Hf']; subst.
    destruct (loop_body_exceeding log cfg inp st Hv He Hc) as [shown [D E]].
    set (st1 := {| button_ctr := button_ctr st;
                   buzz_ctr := to_uint (buzz_ctr st + 1) |}) in *.
    destruct (IH st1 Hv Hf' Hc) as [sts [tr [M L]]].
    eexists (st1 :: sts), _. split.
    + cbn [main_loop]. rewrite E, bind_Some_l, M, bind_Some_l. reflexivity.
    + rewrite last_cons, L. cbn [buzz_ctr st1 length]. rewrite Nat2Z.inj_succ.
      unfold to_uint. rewrite Zplus_mod_idemp_l. f_equal. lia.
Qed.

Lemma loop_body_buzz_range (log : double -> double) (cfg : config)
      (inp : input) (st st' : state) (tr : trace) :
  0 <= buzz_ctr st < UINT_MODULUS ->
  loop_body log cfg inp st = Some (st', tr) ->
  0 <= buzz_ctr st' < UINT_MODULUS.
Proof.
  intros Hr H. apply loop_body_cases in H. destruct H as [c [ts [_ [_ M]]]].
  destruct M as [[_ [-> _]]|[[_ [-> _]]|[_ [-> _]]]]; try exact Hr.
  destruct (_ <? _); [apply Z.mod_pos_bound; reflexivity | unfold UINT_MODULUS; lia].
Qed.

Lemma main_loop_buzz_range (log : double -> double) (cfg : config)
      (inps : list input) : forall (st : state) (sts : list state) (tr : trace),
  0 <= buzz_ctr st < UINT_MODULUS ->
  main_loop log cfg inps st = Some (sts, tr) ->
  0 <= buzz_ctr (last sts st) < UINT_MODULUS.
Proof.
  induction inps as [|inp inps IH]; intros st sts tr Hr M.
  - injection M as <- _. exact Hr.
  - cbn [main_loop] in M. apply bind_some in M.
    destruct M as [st1 [t1 [t2 [H1 [H2 _]]]]].
    apply bind_some in H2. destruct H2 as [sts' [t3 [t4 [H3 [H4 _]]]]].
    injection H4 as <- _. rewrite last_cons.
    apply (IH _ _ _ (loop_body_buzz_range _ _ _ _ _ _ Hr H1) H3).
Qed.

(** X15.  The buzz counter wraps: after a run of consecutive exceeding
    normal-mode iterations of any length it is the start value plus the
    length, modulo 65536; after 65536 of them it is back at the start value,
    so the count of consecutive alarms is lost. *)
Theorem buzz_ctr_wraps (log : double -> double) (cfg : config)
        (inps : list input) (st : state) :
  READ_VOLTAGE_OR_DEG cfg = true ->
  Forall released_exceeding inps ->
  button_ctr st mod 3 = 0 ->
  0 <= buzz_ctr st < UINT_MODULUS ->
  exists sts tr,
    main_loop log cfg inps st = Some (sts, tr)
    /\ buzz_ctr (last sts st) = (buzz_ctr st + Z.of_nat (length inps)) mod 65536
    /\ (Z.of_nat (length inps) = 65536 -> buzz_ctr (last sts st) = buzz_ctr st).
Proof.
  intros Hv Hf Hc Hr.
  destruct (main_loop_exceeding_ctr log cfg inps st Hv Hf Hc) as [sts [tr [M L]]].
  exists sts, tr. split; [exact M|].
  rewrite (to_uint_small _ (main_loop_buzz_range _ _ _ _ _ _ Hr M)) in L.
  split; [exact L|].
  intros H65. rewrite L, H65. unfold to_uint, UINT_MODULUS in *.
  change 65536 with (1 * 65536) at 1.
  rewrite Z_mod_plus_full. apply Z.mod_small. exact Hr.
Qed.

(** ** The pins of port 1 *)

Lemma P1OUT_after_app (t1 t2 : trace) : forall p,
  P1OUT_after p (t1 ++ t2) = P1OUT_after (P1OUT_after p t1) t2.
Proof.
  induction t1 as [|e t1 IH]; intros p; [reflexivity|].
  destruct e; cbn [app P1OUT_after]; apply IH.
Qed.

Lemma P1OUT_after_display (t : trace) (p : Z) :
  forallb display_event t = true -> P1OUT_after p t = p.
Proof.
  induction t as [|e t IH]; [reflexivity|].
  cbn [forallb]. intros H. apply andb_prop in H. destruct H as [He Ht].
  destruct e; try discriminate He; cbn [P1OUT_after]; apply IH, Ht.
Qed.

Lemma P1OUT_after_spin (t : trace) (p : Z) :
  forallb spin_event t = true -> P1OUT_after p t = p.
Proof.
  induction t as [|e t IH]; [reflexivity|].
  cbn [forallb]. intros H. apply andb_prop in H. destruct H as [He Ht].
  destruct e; try discriminate He; cbn [P1OUT_after]; apply IH, Ht.
Qed.

(** One period of the square wave. *)
Lemma buzz_period (p : Z) : Z.land (Z.lor p 0x41) 0xBE = Z.land p 0xBE.
Proof.
  rewrite Z.land_lor_distr_l. change (Z.land 0x41 0xBE) with 0.
  apply Z.lor_0_r.
Qed.

Lemma buzz_loop_P1OUT (n : nat) : forall p,
  P1OUT_after p (buzz_loop (S n)) = Z.land p 0xBE.
Proof.
  induction n as [|n IH]; intros p.
  - cbn [buzz_loop app P1OUT_after]. apply buzz_period.
  - change (buzz_loop (S (S n)))
      with ([ P1OUT_or 0x41; busy_loop SOUND_DELAY
            ; P1OUT_and 0xBE; busy_loop SOUND_DELAY ] ++ buzz_loop (S n)).
    rewrite P1OUT_after_app, IH. cbn [P1OUT_after].
    rewrite buzz_period, <- Z.land_assoc. reflexivity.
Qed.

Lemma sampling_P1OUT (p : Z) : P1OUT_after p sampling = Z.land p (Z.lnot 0x01).
Proof.
  cbn [sampling P1OUT_after]. rewrite Z.land_lor_distr_l.
  change (Z.land 1 (Z.lnot 1)) with 0. apply Z.lor_0_r.
Qed.

(** X16.  [buzz] raises the buzzer pin P1.6 (and the LED P1.0) 37 times and
    returns with both low and the other pins of [P1OUT] as they were. *)
Theorem buzz_returns_pins_low (p : Z) :
  count buzzer_on buzz = 37%nat
  /\ P1OUT_after p buzz = Z.land p 0xBE
  /\ Z.testbit (P1OUT_after p buzz) 6 = false
  /\ Z.testbit (P1OUT_after p buzz) 0 = false
  /\ (forall k, 0 <= k -> k <> 0 -> k <> 6 -> k < 8 ->
      Z.testbit (P1OUT_after p buzz) k = Z.testbit p k).
Proof.
  assert (E : P1OUT_after p buzz = Z.land p 0xBE)
    by (change buzz with (buzz_loop 37); apply buzz_loop_P1OUT).
  split; [reflexivity|]. split; [exact E|]. rewrite E.
  split; [rewrite Z.land_spec; apply andb_false_r|].
  split; [rewrite Z.land_spec; apply andb_false_r|].
  intros k H0 Hn0 Hn6 H8. rewrite Z.land_spec.
  assert (C : k = 1 \/ k = 2 \/ k = 3 \/ k = 4 \/ k = 5 \/ k = 7) by lia.
  destruct C as [->|[->|[->|[->|[->| ->]]]]]; apply andb_true_r.
Qed.

Lemma loop_body_P1OUT (log : double -> double) (cfg : config) (inp : input)
      (st st' : state) (tr : trace) (p : Z) :
  Z.land p 0xBE = p ->
  loop_body log cfg inp st = Some (st', tr) ->
  P1OUT_after p tr = p.
Proof.
  intros Hp H.
  assert (H1 : Z.land p (Z.lnot 0x01) = p).
  { rewrite <- Hp at 1. rewrite <- Z.land_assoc.
    change (Z.land 0xBE (Z.lnot 1)) with 0xBE. exact Hp. }
  apply loop_body_cases in H. destruct H as [c [ts [Hs [_ M]]]].
  pose proof (button_sense_spin _ _ _ _ Hs) as S.
  destruct M as [[_ [_ ->]]|[[_ [_ [shown [D ->]]]]|[_ [_ [shown [D ->]]]]]];
    rewrite !P1OUT_after_app, (P1OUT_after_spin _ _ S).
  - apply P1OUT_after_display, blank_display.
  - rewrite sampling_P1OUT, H1. apply P1OUT_after_display, D.
  - rewrite sampling_P1OUT, H1.
    destruct (_ && _ && _).
    + change buzz with (buzz_loop 37). rewrite buzz_loop_P1OUT, Hp.
      apply P1OUT_after_display, D.
    + apply P1OUT_after_display, D.
Qed.

(** X17.  Every completed run of the loop leaves [P1OUT] as it found it,
    provided the buzzer pin P1.6 and the LED P1.0 were low and the value is a
    byte, as after the start-up code: the LED and the buzzer are never left
    on, and no other pin of port 1 is changed. *)
Theorem loop_restores_P1OUT (log : double -> double) (cfg : config)
        (inps : list input) (p : Z) :
  forall (st : state) (sts : list state) (tr : trace),
  Z.land p 0xBE = p ->
  main_loop log cfg inps st = Some (sts, tr) ->
  P1OUT_after p tr = p.
Proof.
  induction inps as [|inp inps IH]; intros st sts tr Hp H.
  - injection H as _ <-. reflexivity.
  - cbn [main_loop] in H. apply bind_some in H.
    destruct H as [st1 [t1 [t2 [H1 [H2 ->]]]]].
    apply bind_some in H2. destruct H2 as [sts' [t3 [t4 [H3 [H4 ->]]]]].
    injection H4 as _ <-.
    rewrite app_nil_r, P1OUT_after_app, (loop_body_P1OUT _ _ _ _ _ _ _ Hp H1).
    apply (IH _ _ _ Hp H3).
Qed.

(** ** The degree build at zero volts *)

(** X18.  In a degree build ([READ_VOLTAGE_OR_DEG] 0) a primary sample of 0
    has no defined display: with a [log] that returns minus infinity at zero,
    the Steinhart-Hart denominator is infinity minus infinity, the
    temperature is not a number, and its conversion to [int] is undefined;
    a normal-mode iteration on that sample does not complete. *)
Theorem zero_volts_in_degrees (log : double -> double) (cfg : config)
        (inp : input) (st : state) (c : Z) (ts : trace) :
  READ_VOLTAGE_OR_DEG cfg = false ->
  log (S754_zero false) = S754_infinity true ->
  button_sense (P2IN_reads inp) (button_ctr st) = Some (c, ts) ->
  c mod 3 = 0 ->
  nth 2 (p1_samples inp) 0 = 0 ->
  degree_conv log (ddiv (voltage_of 0) (int_to_double 1000)) = None
  /\ show log cfg (voltage_of 0) = None
  /\ loop_body log cfg inp st = None.
Proof.
  intros Hv Hlog Hs Hc H0.
  assert (D : degree_conv log (ddiv (voltage_of 0) (int_to_double 1000)) = None).
  { unfold degree_conv. cbv zeta.
    change (ddiv (dmul (int_to_double 10000)
                       (ddiv (voltage_of 0) (int_to_double 1000)))
                 (dsub (dlit 33 10) (ddiv (voltage_of 0) (int_to_double 1000))))
      with (S754_zero false).
    rewrite Hlog. vm_compute. reflexivity. }
  assert (S : show log cfg (voltage_of 0) = None)
    by (unfold show; rewrite Hv, D; reflexivity).
  split; [exact D|]. split; [exact S|].
  pose proof (loop_body_normal log cfg _ _ _ _ Hs Hc) as E. cbv zeta in E.
  rewrite E, H0, S. unfold emit. rewrite bind_Some_l. reflexivity.
Qed.

(** ** The renderer and the millivolt display, end to end *)

Lemma app_eq_length_inv {A : Type} (a : list A) : forall a' b b',
  length a = length a' -> a ++ b = a' ++ b' -> a = a' /\ b = b'.
Proof.
  induction a as [|x a IH]; intros [|x' a'] b b' L H; try discriminate L.
  - split; [reflexivity | exact H].
  - cbn [app] in H. injection H as -> H. cbn [length] in L.
    destruct (IH a' b b' (eq_add_S _ _ L) H) as [-> ->]. split; reflexivity.
Qed.

Lemma frame_length (p k : Z) : length (frame p k) = 17%nat.
Proof. reflexivity. Qed.

(** Two decimal digits whose patterns give the same word on the bus are the
    same digit. *)
Lemma frame_digit_inj (a b k : Z) :
  0 <= a <= 9 -> 0 <= b <= 9 -> 1 <= k <= 4 ->
  frame (pattern_of a) k = frame (pattern_of b) k -> a = b.
Proof.
  intros Ha Hb Hk.
  assert (Ck : k = 1 \/ k = 2 \/ k = 3 \/ k = 4) by lia.
  assert (Ca : a = 0 \/ a = 1 \/ a = 2 \/ a = 3 \/ a = 4 \/ a = 5 \/ a = 6
               \/ a = 7 \/ a = 8 \/ a = 9) by lia.
  assert (Cb : b = 0 \/ b = 1 \/ b = 2 \/ b = 3 \/ b = 4 \/ b = 5 \/ b = 6
               \/ b = 7 \/ b = 8 \/ b = 9) by lia.
  destruct Ck as [->|[->|[->| ->]]];
    destruct Ca as [->|[->|[->|[->|[->|[->|[->|[->|[->| ->]]]]]]]]];
    destruct Cb as [->|[->|[->|[->|[->|[->|[->|[->|[->| ->]]]]]]]]];
    intros H; try reflexivity; vm_compute in H; discriminate H.
Qed.

(** In a millivolt build [show] writes the digits of the sample times 2.96,
    truncated. *)
Lemma show_millivolts_trace (log : double -> double) (cfg : config) (sample : Z) :
  READ_VOLTAGE_OR_DEG cfg = true -> adc_sample sample ->
  show log cfg (voltage_of sample)
  = Some (tt, concat (repeat (display_pass
                                (pattern_of ((sample * 296 / 100 / 1000) mod 10))
                                (pattern_of ((sample * 296 / 100 / 100) mod 10))
                                (pattern_of ((sample * 296 / 100 / 10) mod 10))
                                (pattern_of ((sample * 296 / 100) mod 10))) 80)).
Proof.
  intros Hc Hs. unfold show. rewrite Hc, (voltage_of_adc _ Hs). unfold lift.
  rewrite bind_Some_l, write_4digit_trace
    by (unfold adc_sample in Hs; Z.div_mod_to_equations; lia).
  reflexivity.
Qed.

Lemma loop_body_normal_millivolts (log : double -> double) (cfg : config)
      (inp : input) (st : state) (c : Z) (ts : trace) :
  READ_VOLTAGE_OR_DEG cfg = true ->
  button_sense (P2IN_reads inp) (button_ctr st) = Some (c, ts) ->
  c mod 3 = 0 ->
  adc_sample (nth 2 (p1_samples inp) 0) ->
  loop_body log cfg inp st
  = Some ({| button_ctr := c;
             buzz_ctr := if to_int (nth 0 (p1_samples inp) 0)
                            <? to_int (nth 2 (p1_samples inp) 0)
                         then to_uint (buzz_ctr st + 1) else 0 |},
          ts ++ sampling
          ++ (if TEMP_THRESHOLD_TOGGLE cfg
                 && (to_int (nth 0 (p1_samples inp) 0)
                     <? to_int (nth 2 (p1_samples inp) 0))
                 && (buzz_ctr st <? to_uint (BUZZER_LIMIT cfg))
              then buzz else [])
          ++ concat (repeat (display_pass
               (pattern_of ((nth 2 (p1_samples inp) 0 * 296 / 100 / 1000) mod 10))
               (pattern_of ((nth 2 (p1_samples inp) 0 * 296 / 100 / 100) mod 10))
               (pattern_of ((nth 2 (p1_samples inp) 0 * 296 / 100 / 10) mod 10))
               (pattern_of ((nth 2 (p1_samples inp) 0 * 296 / 100) mod 10))) 80)).
Proof.
  intros Hv Hs Hc Ha.
  pose proof (loop_body_normal log cfg _ _ _ _ Hs Hc) as E. cbv zeta in E.
  rewrite E, (show_millivolts_trace log cfg _ Hv Ha).
  unfold emit, ret. rewrite !bind_Some_l, app_nil_r, <- !app_assoc. reflexivity.
Qed.

Lemma loop_body_pot_millivolts (log : double -> double) (cfg : config)
      (inp : input) (st : state) (c : Z) (ts : trace) :
  READ_VOLTAGE_OR_DEG cfg = true ->
  button_sense (P2IN_reads inp) (button_ctr st) = Some (c, ts) ->
  c mod 3 = 1 ->
  adc_sample (nth 0 (p1_samples inp) 0) ->
  loop_body log cfg inp st
  = Some ({| button_ctr := c; buzz_ctr := buzz_ctr st |},
          ts ++ sampling
          ++ concat (repeat (display_pass
               (pattern_of ((nth 0 (p1_samples inp) 0 * 296 / 100 / 1000) mod 10))
               (pattern_of ((nth 0 (p1_samples inp) 0 * 296 / 100 / 100) mod 10))
               (pattern_of ((nth 0 (p1_samples inp) 0 * 296 / 100 / 10) mod 10))
               (pattern_of ((nth 0 (p1_samples inp) 0 * 296 / 100) mod 10))) 80)).
Proof.
  intros Hv Hs Hc Ha.
  rewrite (loop_body_pot log cfg _ _ _ _ Hs Hc),
    (show_millivolts_trace log cfg _ Hv Ha).
  unfold emit, ret. rewrite !bind_Some_l, app_nil_r, <- !app_assoc. reflexivity.
Qed.

(** C6.  A non-negative number of more than four decimal digits is shown by
    its four low-order digits: [write_4digit] hands [inject_7seg] the digits
    of [N mod 10000], thousands first, and what it writes, and what the bus
    carries, are the 80 passes over the patterns of those digits.  The call
    is not an error, it does what the call on [N mod 10000] does, and it is
    not the call on 9999 unless [N mod 10000] is 9999. *)
Theorem write_4digit_truncates (N delay : Z) :
  10000 <= N ->
  let M := N mod 10000 in
  write_4digit N delay
  = inject_7seg (M / 1000) (M / 100 mod 10) (M / 10 mod 10) (M mod 10) WAIT_TIME
  /\ write_4digit N delay
     = Some (tt, concat (repeat (display_pass (pattern_of (M / 1000))
                                              (pattern_of (M / 100 mod 10))
                                              (pattern_of (M / 10 mod 10))
                                              (pattern_of (M mod 10))) 80))
  /\ (forall prev,
        bus prev (concat (repeat (display_pass (pattern_of (M / 1000))
                                               (pattern_of (M / 100 mod 10))
                                               (pattern_of (M / 10 mod 10))
                                               (pattern_of (M mod 10))) 80))
        = concat (repeat (frame (pattern_of (M / 1000)) 4
                          ++ frame (pattern_of (M / 100 mod 10)) 3
                          ++ frame (pattern_of (M / 10 mod 10)) 2
                          ++ frame (pattern_of (M mod 10)) 1) 80))
  /\ write_4digit N delay = write_4digit M delay
  /\ (M <> 9999 -> write_4digit N delay <> write_4digit 9999 delay).
Proof.
  intros H M. pose proof (Z.mod_pos_bound N 10000) as Hm. fold M in Hm.
  assert (E1 : (N / 1000) mod 10 = M / 1000)
    by (unfold M; Z.div_mod_to_equations; lia).
  assert (E2 : (N / 100) mod 10 = M / 100 mod 10)
    by (unfold M; Z.div_mod_to_equations; lia).
  assert (E3 : (N / 10) mod 10 = M / 10 mod 10)
    by (unfold M; Z.div_mod_to_equations; lia).
  assert (E4 : N mod 10 = M mod 10)
    by (unfold M; Z.div_mod_to_equations; lia).
  assert (B1 : 0 <= M / 1000 <= 9) by (Z.div_mod_to_equations; lia).
  assert (B : forall a, 0 <= a mod 10 <= 9)
    by (intros a; pose proof (Z.mod_pos_bound a 10); lia).
  assert (T : write_4digit N delay
              = Some (tt, concat (repeat (display_pass (pattern_of (M / 1000))
                                                       (pattern_of (M / 100 mod 10))
                                                       (pattern_of (M / 10 mod 10))
                                                       (pattern_of (M mod 10))) 80)))
    by (rewrite write_4digit_trace, E1, E2, E3, E4 by lia; reflexivity).
  assert (U : forall prev,
              bus prev (concat (repeat (display_pass (pattern_of (M / 1000))
                                                     (pattern_of (M / 100 mod 10))
                                                     (pattern_of (M / 10 mod 10))
                                                     (pattern_of (M mod 10))) 80))
              = concat (repeat (frame (pattern_of (M / 1000)) 4
                                ++ frame (pattern_of (M / 100 mod 10)) 3
                                ++ frame (pattern_of (M / 10 mod 10)) 2
                                ++ frame (pattern_of (M mod 10)) 1) 80)).
  { intros prev. rewrite bus_repeat_pass.
    rewrite (proj2 (pattern_of_digit _ B1)), (proj2 (pattern_of_digit _ (B (M / 100)))),
      (proj2 (pattern_of_digit _ (B (M / 10)))), (proj2 (pattern_of_digit _ (B M))).
    reflexivity. }
  split; [|split; [exact T | split; [exact U | split]]].
  - rewrite write_4digit_digits4, (digits4_nonneg N) by lia.
    rewrite E1, E2, E3, E4. reflexivity.
  - unfold M. rewrite !write_4digit_digits4, <- digits4_mod_10000 by lia.
    reflexivity.
  - intros Hn Heq. rewrite T, (write_4digit_trace 9999 delay) in Heq by lia.
    apply Some_pair_inv in Heq. destruct Heq as [_ Heq].
    apply (f_equal (bus 0)) in Heq. rewrite U, bus_repeat_pass in Heq.
    change 80%nat with (S 79) in Heq. cbn [repeat concat] in Heq.
    apply app_eq_length_inv in Heq; [|rewrite !length_app, !frame_length; reflexivity].
    destruct Heq as [Heq _].
    apply app_eq_length_inv in Heq; [|rewrite !frame_length; reflexivity].
    destruct Heq as [F1 Heq].
    apply app_eq_length_inv in Heq; [|rewrite !frame_length; reflexivity].
    destruct Heq as [F2 Heq].
    apply app_eq_length_inv in Heq; [|rewrite !frame_length; reflexivity].
    destruct Heq as [F3 F4].
    change (to_int (pattern_of ((9999 / 1000) mod 10))) with (pattern_of 9) in F1.
    change (to_int (pattern_of ((9999 / 100) mod 10))) with (pattern_of 9) in F2.
    change (to_int (pattern_of ((9999 / 10) mod 10))) with (pattern_of 9) in F3.
    change (to_int (pattern_of (9999 mod 10))) with (pattern_of 9) in F4.
    apply frame_digit_inj in F1; [|exact B1 | lia | lia].
    apply frame_digit_inj in F2; [|apply B | lia | lia].
    apply frame_digit_inj in F3; [|apply B | lia | lia].
    apply frame_digit_inj in F4; [|apply B | lia | lia].
    apply Hn. Z.div_mod_to_equations. lia.
Qed.

(** C8.  2.96 is the coefficient, and a sample of 500 steps is shown as 1480:
    in a millivolt build an iteration that reads 500 from the channel it
    shows (the primary one in normal mode, the potentiometer in
    potentiometer mode) ends with the 80 passes over the patterns of the
    digits 1, 4, 8, 0, left to right; these are what [write_4digit] does on
    1480, the truncated product. *)
Theorem sample_500_shows_1480 (log : double -> double) (cfg : config)
        (inp : input) (st : state) (c : Z) (ts : trace) :
  READ_VOLTAGE_OR_DEG cfg = true ->
  button_sense (P2IN_reads inp) (button_ctr st) = Some (c, ts) ->
  let shown :=
    concat (repeat (display_pass (pattern_of 1) (pattern_of 4)
                                 (pattern_of 8) (pattern_of 0)) 80) in
  VOLTAGE_COEFF = dlit 296 100
  /\ double_to_int (dmul (int_to_double 500) VOLTAGE_COEFF) = Some 1480
  /\ write_4digit 1480 WAIT_TIME = inject_7seg 1 4 8 0 WAIT_TIME
  /\ write_4digit 1480 WAIT_TIME = Some (tt, shown)
  /\ (forall prev,
        bus prev shown
        = concat (repeat (frame 0x60 4 ++ frame 0x66 3
                          ++ frame 0xFE 2 ++ frame 0xFC 1) 80))
  /\ (c mod 3 = 0 -> nth 2 (p1_samples inp) 0 = 500 ->
      loop_body log cfg inp st
      = Some ({| button_ctr := c;
                 buzz_ctr := if to_int (nth 0 (p1_samples inp) 0) <? 500
                             then to_uint (buzz_ctr st + 1) else 0 |},
              ts ++ sampling
              ++ (if TEMP_THRESHOLD_TOGGLE cfg
                     && (to_int (nth 0 (p1_samples inp) 0) <? 500)
                     && (buzz_ctr st <? to_uint (BUZZER_LIMIT cfg))
                  then buzz else [])
              ++ shown))
  /\ (c mod 3 = 1 -> nth 0 (p1_samples inp) 0 = 500 ->
      loop_body log cfg inp st
      = Some ({| button_ctr := c; buzz_ctr := buzz_ctr st |},
              ts ++ sampling ++ shown)).
Proof.
  intros Hv Hs shown.
  assert (A : adc_sample 500) by (unfold adc_sample; lia).
  split; [vm_compute; reflexivity|].
  split; [vm_compute; reflexivity|].
  split; [reflexivity|].
  split; [apply (write_4digit_trace 1480 WAIT_TIME); lia|].
  split; [intros prev; unfold shown; rewrite bus_repeat_pass; reflexivity|].
  split.
  - intros Hc H500.
    pose proof (loop_body_normal_millivolts log cfg inp st c ts Hv Hs Hc) as E.
    rewrite H500 in E. apply (E A).
  - intros Hc H500.
    pose proof (loop_body_pot_millivolts log cfg inp st c ts Hv Hs Hc) as E.
    rewrite H500 in E. apply (E A).
Qed.

(** X10.  In a millivolt build every 10-bit primary sample is shown in full:
    a normal-mode iteration ends with the 80 passes over the patterns of four
    decimal digits that read back as the sample times 2.96, truncated, which
    is at most 3028. *)
Theorem millivolts_shown (log : double -> double) (cfg : config) (inp : input)
        (st : state) (c : Z) (ts : trace) :
  READ_VOLTAGE_OR_DEG cfg = true ->
  button_sense (P2IN_reads inp) (button_ctr st) = Some (c, ts) ->
  c mod 3 = 0 ->
  adc_sample (nth 2 (p1_samples inp) 0) ->
  exists d_1 d_2 d_3 d_4,
    (0 <= d_1 <= 9 /\ 0 <= d_2 <= 9 /\ 0 <= d_3 <= 9 /\ 0 <= d_4 <= 9)
    /\ 1000 * d_1 + 100 * d_2 + 10 * d_3 + d_4
       = nth 2 (p1_samples inp) 0 * 296 / 100
    /\ nth 2 (p1_samples inp) 0 * 296 / 100 <= 3028
    /\ loop_body log cfg inp st
       = Some ({| button_ctr := c;
                  buzz_ctr := if to_int (nth 0 (p1_samples inp) 0)
                                 <? to_int (nth 2 (p1_samples inp) 0)
                              then to_uint (buzz_ctr st + 1) else 0 |},
               ts ++ sampling
               ++ (if TEMP_THRESHOLD_TOGGLE cfg
                      && (to_int (nth 0 (p1_samples inp) 0)
                          <? to_int (nth 2 (p1_samples inp) 0))
                      && (buzz_ctr st <? to_uint (BUZZER_LIMIT cfg))
                   then buzz else [])
               ++ concat (repeat (display_pass (pattern_of d_1) (pattern_of d_2)
                                               (pattern_of d_3) (pattern_of d_4))
                                 80)).
Proof.
  intros Hv Hs Hc Ha.
  exists ((nth 2 (p1_samples inp) 0 * 296 / 100 / 1000) mod 10),
         ((nth 2 (p1_samples inp) 0 * 296 / 100 / 100) mod 10),
         ((nth 2 (p1_samples inp) 0 * 296 / 100 / 10) mod 10),
         ((nth 2 (p1_samples inp) 0 * 296 / 100) mod 10).
  unfold adc_sample in Ha.
  split; [repeat split; Z.div_mod_to_equations; lia|].
  split; [Z.div_mod_to_equations; lia|].
  split; [Z.div_mod_to_equations; lia|].
  apply (loop_body_normal_millivolts log cfg inp st c ts Hv Hs Hc Ha).
Qed.

(** ** Instances of the further properties *)

Lemma exceeding_input_released : released_exceeding exceeding_input.
Proof.
  split; [exists 0x02, []; split; reflexivity|].
  unfold adc_sample. cbn. lia.
Qed.

Lemma press_counted_once_witness :
  button_sense [0; 0; 0; 2] 5
  = Some (6, [busy_loop 200; busy_loop 200; busy_loop 200]).
Proof.
  exact (press_counted_once 0 2 [0; 0] [] 5 eq_refl eq_refl eq_refl).
Defined.


Lemma press_advances_mode_witness :
  5 mod 3 = (4 mod 3 + 1) mod 3.
Proof.
  refine (press_advances_mode 0 [2] 4 5 [busy_loop WAIT_TIME] _ _ _).
  - unfold UINT_MODULUS. lia.
  - reflexivity.
  - reflexivity.
Defined.

Lemma write_4digit_bus_witness :
  exists t,
    write_4digit 1480 WAIT_TIME = Some (tt, t)
    /\ bus 0 t
       = concat (repeat (frame 0x60 4 ++ frame 0x66 3
                         ++ frame 0xFE 2 ++ frame 0xFC 1) 80).
Proof.
  refine (write_4digit_bus 1480 WAIT_TIME 0 _). lia.
Defined.

Lemma table_read_injective_witness :
  3 = 3 /\ 0 <= 0xF2 < 256 /\ Z.testbit 0xF2 0 = false.
Proof.
  refine (table_read_injective 3 3 0xF2 _ _ _ _); try lia; reflexivity.
Defined.

Lemma inject_7seg_short_delay_witness :
  inject_7seg 65535 0 0 0 2 = Some (tt, []).
Proof.
  refine (inject_7seg_short_delay 65535 0 0 0 2 _). lia.
Defined.

Lemma one_conversion_per_iteration_witness :
  exists st' tr,
    loop_body log_unused source_config exceeding_input initial_state
    = Some (st', tr)
    /\ count adc_started tr = 1%nat.
Proof.
  destruct (loop_body_exceeding log_unused source_config exceeding_input
              initial_state eq_refl exceeding_input_released eq_refl)
    as [shown [_ E]].
  do 2 eexists. split; [exact E|].
  exact (one_conversion_per_iteration _ _ _ _ _ _ E).
Defined.

Lemma counters_stay_in_range_witness :
  exists st' tr,
    loop_body log_unused source_config exceeding_input initial_state
    = Some (st', tr)
    /\ 0 <= button_ctr st' < UINT_MODULUS /\ 0 <= buzz_ctr st' < UINT_MODULUS.
Proof.
  destruct (loop_body_exceeding log_unused source_config exceeding_input
              initial_state eq_refl exceeding_input_released eq_refl)
    as [shown [_ E]].
  do 2 eexists. split; [exact E|].
  refine (counters_stay_in_range _ _ _ initial_state _ _ _ _ E);
    unfold UINT_MODULUS; cbn; lia.
Defined.

Lemma threshold_off_never_buzzes_witness :
  exists sts tr,
    main_loop log_unused
              threshold_off_config
              [exceeding_input; exceeding_input] initial_state
    = Some (sts, tr)
    /\ existsb buzzer_on tr = false.
Proof.
  destruct (main_loop_exceeding_ctr log_unused
              threshold_off_config
              [exceeding_input; exceeding_input] initial_state eq_refl)
    as [sts [tr [M _]]].
  - repeat (apply Forall_cons; [apply exceeding_input_released|]). apply Forall_nil.
  - reflexivity.
  - exists sts, tr. split; [exact M|].
    exact (threshold_off_never_buzzes log_unused threshold_off_config
             [exceeding_input; exceeding_input] initial_state sts tr eq_refl M).
Defined.

Lemma consecutive_alarms_witness :
  exists sts tr,
    main_loop log_unused limit2_config (repeat exceeding_input 4) initial_state
    = Some (sts, tr)
    /\ map buzz_ctr sts = [1; 2; 3; 4]
    /\ Z.of_nat (count buzzer_on tr) = 74.
Proof.
  refine (consecutive_alarms log_unused limit2_config (repeat exceeding_input 4)
            initial_state _ _ _ _ _ _ _).
  - reflexivity.
  - reflexivity.
  - unfold UINT_MODULUS. cbn. lia.
  - repeat (apply Forall_cons; [apply exceeding_input_released|]). apply Forall_nil.
  - reflexivity.
  - reflexivity.
  - unfold UINT_MODULUS. cbn. lia.
Defined.

Lemma buzz_ctr_wraps_witness :
  exists sts tr,
    main_loop log_unused source_config [exceeding_input; exceeding_input]
              {| button_ctr := 0; buzz_ctr := 65535 |}
    = Some (sts, tr)
    /\ buzz_ctr (last sts {| button_ctr := 0; buzz_ctr := 65535 |}) = 1.
Proof.
  destruct (buzz_ctr_wraps log_unused source_config
              [exceeding_input; exceeding_input]
              {| button_ctr := 0; buzz_ctr := 65535 |} eq_refl)
    as [sts [tr [M [L _]]]].
  - repeat (apply Forall_cons; [apply exceeding_input_released|]). apply Forall_nil.
  - reflexivity.
  - unfold UINT_MODULUS. cbn. lia.
  - exists sts, tr. split; [exact M | exact L].
Defined.

Lemma loop_restores_P1OUT_witness :
  exists sts tr,
    main_loop log_unused source_config [exceeding_input; exceeding_input]
              initial_state
    = Some (sts, tr)
    /\ P1OUT_after 0x3E tr = 0x3E.
Proof.
  destruct (main_loop_exceeding_ctr log_unused source_config
              [exceeding_input; exceeding_input] initial_state eq_refl)
    as [sts [tr [M _]]].
  - repeat (apply Forall_cons; [apply exceeding_input_released|]). apply Forall_nil.
  - reflexivity.
  - exists sts, tr. split; [exact M|].
    exact (loop_restores_P1OUT log_unused source_config
             [exceeding_input; exceeding_input] 0x3E initial_state sts tr
             eq_refl M).
Defined.

Lemma zero_volts_in_degrees_witness :
  loop_body log_pole
            degree_config
            {| P2IN_reads := [0x02]; p1_samples := [500; 0; 0] |}
            initial_state
  = None.
Proof.
  refine (proj2 (proj2 (zero_volts_in_degrees log_pole
            degree_config
            {| P2IN_reads := [0x02]; p1_samples := [500; 0; 0] |}
            initial_state 0 [] _ _ _ _ _))); reflexivity.
Defined.

Lemma digits_recombine_witness :
  exists d_1 d_2 d_3 d_4,
    (0 <= d_1 <= 9 /\ 0 <= d_2 <= 9 /\ 0 <= d_3 <= 9 /\ 0 <= d_4 <= 9)
    /\ 1000 * d_1 + 100 * d_2 + 10 * d_3 + d_4 = 12345 mod 10000
    /\ write_4digit 12345 WAIT_TIME = inject_7seg d_1 d_2 d_3 d_4 WAIT_TIME
    /\ write_4digit 12345 WAIT_TIME
       = Some (tt, concat (repeat (display_pass (pattern_of d_1) (pattern_of d_2)
                                                (pattern_of d_3) (pattern_of d_4))
                                  80)).
Proof.
  refine (digits_recombine 12345 WAIT_TIME _). lia.
Defined.

Lemma write_4digit_truncates_witness :
  write_4digit 12345 WAIT_TIME
  = Some (tt, concat (repeat (display_pass 0xDA 0xF2 0x66 0xB6) 80))
  /\ write_4digit 12345 WAIT_TIME <> write_4digit 9999 WAIT_TIME.
Proof.
  assert (H : 10000 <= 12345) by lia.
  split.
  - exact (proj1 (proj2 (write_4digit_truncates 12345 WAIT_TIME H))).
  - refine (proj2 (proj2 (proj2 (proj2
              (write_4digit_truncates 12345 WAIT_TIME H)))) _).
    vm_compute. discriminate.
Defined.

Lemma sample_500_shows_1480_witness :
  loop_body log_unused source_config
            {| P2IN_reads := [0x02]; p1_samples := [400; 0; 500] |}
            initial_state
  = Some ({| button_ctr := 0; buzz_ctr := 1 |},
          sampling ++ buzz
          ++ concat (repeat (display_pass 0x60 0x66 0xFE 0xFC) 80)).
Proof.
  refine (proj1 (proj2 (proj2 (proj2 (proj2 (proj2
            (sample_500_shows_1480 log_unused source_config
               {| P2IN_reads := [0x02]; p1_samples := [400; 0; 500] |}
               initial_state 0 [] _ _)))))) _ _); reflexivity.
Defined.

Lemma millivolts_shown_witness :
  exists d_1 d_2 d_3 d_4,
    (0 <= d_1 <= 9 /\ 0 <= d_2 <= 9 /\ 0 <= d_3 <= 9 /\ 0 <= d_4 <= 9)
    /\ 1000 * d_1 + 100 * d_2 + 10 * d_3 + d_4 = 1776
    /\ 1776 <= 3028
    /\ loop_body log_unused source_config exceeding_input initial_state
       = Some ({| button_ctr := 0; buzz_ctr := 1 |},
               sampling ++ buzz
               ++ concat (repeat (display_pass (pattern_of d_1) (pattern_of d_2)
                                               (pattern_of d_3) (pattern_of d_4))
                                 80)).
Proof.
  refine (millivolts_shown log_unused source_config exceeding_input
            initial_state 0 [] _ _ _ _).
  - reflexivity.
  - reflexivity.
  - reflexivity.
  - unfold adc_sample. cbn. lia.
Defined.
